(** * Verification of the property-to-widget engine of shacl-form (src/inputs.ts, src/config.ts)

    Shallow embedding of [inputFactory] and of the editor classes
    [InputText], [InputLangString], [InputNumber], [InputDate],
    [InputBoolean] and [InputList], and of the configuration of
    src/config.ts ([Config], [from], [keysAsDataAttributes], [equals],
    [registerPrefixes]).  The DOM elements the editors own are modelled as
    records holding the state the code reads and writes. *)

From Stdlib Require Import ZArith QArith Ascii String Bool Wf_nat.
From stdpp Require Import base gmap strings list.

Open Scope string_scope.

(* ------------------------------------------------------------------ *)
(** ** Namespaces (src/constants.ts is not under src: the standard IRIs) *)

Definition PREFIX_XSD : string := "http://www.w3.org/2001/XMLSchema#".
Definition PREFIX_RDF : string := "http://www.w3.org/1999/02/22-rdf-syntax-ns#".
Definition PREFIX_SHACL : string := "http://www.w3.org/ns/shacl#".

Definition XSD_string : string := PREFIX_XSD ++ "string".
Definition XSD_integer : string := PREFIX_XSD ++ "integer".
Definition XSD_double : string := PREFIX_XSD ++ "double".
Definition XSD_boolean : string := PREFIX_XSD ++ "boolean".
Definition XSD_date : string := PREFIX_XSD ++ "date".
Definition XSD_dateTime : string := PREFIX_XSD ++ "dateTime".
Definition RDF_langString : string := PREFIX_RDF ++ "langString".
Definition SHACL_IRI : string := PREFIX_SHACL ++ "IRI".

(* ------------------------------------------------------------------ *)
(** ** JavaScript string helpers *)

(** Truthiness of a string: only the empty string is falsy. *)
Definition str_truthy (s : string) : bool := negb (String.eqb s "").

(** Truthiness of an optional string ([undefined] is falsy). *)
Definition opt_str_truthy (o : option string) : bool :=
  match o with Some s => str_truthy s | None => false end.

(** [s.slice(0, n)] *)
Definition slice0 (s : string) (n : nat) : string := String.substring 0 n s.

(** [s.replace(pat, '')] with a string pattern: removes the FIRST
    occurrence of [pat], wherever it is. *)
Fixpoint js_replace_first (pat s : string) : string :=
  if String.prefix pat s
  then String.substring (String.length pat) (String.length s - String.length pat) s
  else match s with
       | EmptyString => EmptyString
       | String c s' => String c (js_replace_first pat s')
       end.

(** ASCII [toLowerCase]. *)
Definition ascii_lower (c : ascii) : ascii :=
  let n := nat_of_ascii c in
  if (65 <=? n)%nat && (n <=? 90)%nat then ascii_of_nat (n + 32) else c.

Fixpoint to_lower (s : string) : string :=
  match s with
  | EmptyString => EmptyString
  | String c s' => String (ascii_lower c) (to_lower s')
  end.

(* ------------------------------------------------------------------ *)
(** ** RDF terms and the n3 [DataFactory] *)

(** An n3 term as the editors see it: a named node, or a literal with its
    lexical value, its language tag ([""] when none) and its datatype IRI. *)
Inductive term : Type :=
| NamedNode (iri : string)
| Literal (value : string) (language : string) (datatype : string).

(** [term.value] *)
Definition term_value (t : term) : string :=
  match t with NamedNode i => i | Literal v _ _ => v end.

(** [term.language] for an n3 [Literal] *)
Definition term_language (t : term) : string :=
  match t with NamedNode _ => "" | Literal _ l _ => l end.

(** Second argument of n3's [DataFactory.literal(value, languageOrDataType)]:
    a language string, or a datatype node (whose [.value] is given), or
    [undefined]. *)
Inductive lang_or_datatype : Type :=
| LangArg (language : string)
| DatatypeArg (datatype : option string).

(** n3's [DataFactory.literal] for a string value: a string second argument
    is a language tag and is lower-cased; otherwise the datatype is the
    node's IRI, with [""] and xsd:string both giving a plain xsd:string
    literal. *)
Definition literal (value : string) (ld : lang_or_datatype) : term :=
  match ld with
  | LangArg l => Literal value (to_lower l) RDF_langString
  | DatatypeArg d =>
      let dt := match d with Some d => d | None => "" end in
      if String.eqb dt "" || String.eqb dt XSD_string
      then Literal value "" XSD_string
      else Literal value "" dt
  end.

(* ------------------------------------------------------------------ *)
(** ** Property specs and the configuration *)

(** Modelled from the spec: [ShaclPropertySpec] (src/property-spec.ts is not
    under src), with the fields of section 3 that the editors read.  An
    optional IRI is kept as its [.value]; numbers of the value range are
    rationals. *)
Record ShaclPropertySpec : Type := {
  path : string;
  datatype : option string;
  class : option string;
  nodeKind : option string;
  minCount : option Z;
  minLength : option Z;
  maxLength : option Z;
  pattern : option string;
  minInclusive : option Q;
  maxInclusive : option Q;
  minExclusive : option Q;
  maxExclusive : option Q;
  singleLine : option bool;
  languageIn : list string;
  shaclIn : option string;
  defaultValue : option term;
  label : string;
  description : option string
}.

(** [config.lists]: the RDF lists of the shapes graph by list id. *)
Abbreviation lists_map := (gmap string (list term)).

(** A message written by [console.error]. *)
Inductive diagnostic : Type :=
| ListNotFound (id : string).

(* ------------------------------------------------------------------ *)
(** ** [inputFactory] *)

Inductive EditorKind : Type :=
| InputText | InputLangString | InputNumber | InputDate | InputBoolean | InputList.

(** The [switch] on [property.datatype?.value.replace(PREFIX_XSD, '')]
    (its [case]s are [===] tests in order); [None] is the case where no
    [case] matches, including [undefined]. *)
Definition datatype_switch (d : option string) : option EditorKind :=
  match option_map (js_replace_first PREFIX_XSD) d with
  | None => None
  | Some s =>
      if String.eqb s "string" then Some InputText
      else if String.eqb s "integer" || String.eqb s "float" || String.eqb s "double"
              || String.eqb s "decimal" then Some InputNumber
      else if String.eqb s "date" || String.eqb s "dateTime" then Some InputDate
      else if String.eqb s "boolean" then Some InputBoolean
      else None
  end.

(** The langString test of [inputFactory]. *)
Definition is_langstring (p : ShaclPropertySpec) : bool :=
  match p.(datatype) with Some d => String.eqb d RDF_langString | None => false end
  || negb (bool_decide (p.(languageIn) = [])).

(** The list step: [inl entries] when [InputList] is returned, [inr log]
    with the messages of [console.error] when the code falls through. *)
Definition list_step (lists : lists_map) (p : ShaclPropertySpec)
  : list term + list diagnostic :=
  match p.(shaclIn) with
  | Some id =>
      if str_truthy id then
        match lists !! id with
        | Some (e :: es) => inl (e :: es)
        | _ => inr [ListNotFound id]
        end
      else inr []
  | None => inr []
  end.

(** [inputFactory]: the editor class it instantiates, with the diagnostics
    written on the way. *)
Definition inputFactory (lists : lists_map) (p : ShaclPropertySpec)
  : EditorKind * list diagnostic :=
  match list_step lists p with
  | inl _ => (InputList, [])
  | inr log =>
      if is_langstring p then (InputLangString, log)
      else match datatype_switch p.(datatype) with
           | Some k => (k, log)
           | None => (InputText, log)
           end
  end.

(* ------------------------------------------------------------------ *)
(** ** JavaScript numbers, [parseFloat] and [Date] *)

Section Host.

(** A finite Number is represented by a StrDecimalLiteral denoting it (its
    value is that literal's value rounded to a double).  ToString of such a
    Number (the shortest round-tripping rendering, or ["Infinity"] after
    overflow) and [Number.isInteger] are left as parameters. *)
Variable decimal_to_string : string -> string.
Variable decimal_is_integer : string -> bool.

(** [Date.parse] on strings outside the ISO date-time format of
    ECMAScript 21.4.1.32 (implementation-specific formats, expanded years),
    giving [None] for NaN. *)
Variable date_parse_other : string -> option Z.

(** The host's local time zone offset in milliseconds (LocalTZA, taken
    constant). *)
Variable tza : Z.

Inductive js_number : Type :=
| JSNaN
| JSInfinity (negative : bool)
| JSDecimal (lit : string).

(** [String(n)] / [`${n}`] *)
Definition number_to_string (n : js_number) : string :=
  match n with
  | JSNaN => "NaN"
  | JSInfinity false => "Infinity"
  | JSInfinity true => "-Infinity"
  | JSDecimal lit => decimal_to_string lit
  end.

Definition is_digit (c : ascii) : bool :=
  let n := nat_of_ascii c in (48 <=? n)%nat && (n <=? 57)%nat.

(** StrWhiteSpaceChar (ASCII part). *)
Definition is_js_space (c : ascii) : bool :=
  let n := nat_of_ascii c in ((9 <=? n)%nat && (n <=? 13)%nat) || (n =? 32)%nat.

Fixpoint trim_start (s : string) : string :=
  match s with
  | String c s' => if is_js_space c then trim_start s' else s
  | EmptyString => EmptyString
  end.

Definition drop (n : nat) (s : string) : string :=
  String.substring n (String.length s - n) s.

Fixpoint count_digits (s : string) : nat :=
  match s with
  | String c s' => if is_digit c then S (count_digits s') else 0
  | EmptyString => 0
  end.

(** Length of the ExponentPart at the head of [s] (0 when there is none). *)
Definition scan_exponent (s : string) : nat :=
  match s with
  | String c s' =>
      if Ascii.eqb c "e" || Ascii.eqb c "E" then
        let '(sg, rest) :=
          match s' with
          | String c2 s'' => if Ascii.eqb c2 "+" || Ascii.eqb c2 "-" then (1%nat, s'') else (0%nat, s')
          | EmptyString => (0%nat, s')
          end in
        let k := count_digits rest in
        if (k =? 0)%nat then 0%nat else (1 + sg + k)%nat
      else 0%nat
  | EmptyString => 0%nat
  end.

(** Length of the longest StrUnsignedDecimalLiteral prefix of [s]. *)
Definition scan_unsigned (s : string) : option nat :=
  if String.prefix "Infinity" s then Some 8%nat else
  let d1 := count_digits s in
  match drop d1 s with
  | String "." s2 =>
      let d2 := count_digits s2 in
      if (d1 + d2 =? 0)%nat then None
      else Some (d1 + 1 + d2 + scan_exponent (drop d2 s2))%nat
  | s1 => if (d1 =? 0)%nat then None else Some (d1 + scan_exponent s1)%nat
  end.

(** Length of the longest StrDecimalLiteral prefix of [s]. *)
Definition scan_decimal (s : string) : option nat :=
  match s with
  | String c s' =>
      if Ascii.eqb c "+" || Ascii.eqb c "-" then option_map S (scan_unsigned s')
      else scan_unsigned s
  | EmptyString => None
  end.

(** [parseFloat] (ECMAScript 19.2.4). *)
Definition parseFloat (v : string) : js_number :=
  let t := trim_start v in
  match scan_decimal t with
  | None => JSNaN
  | Some n =>
      let lit := slice0 t n in
      if String.eqb lit "Infinity" || String.eqb lit "+Infinity" then JSInfinity false
      else if String.eqb lit "-Infinity" then JSInfinity true
      else JSDecimal lit
  end.

(** ToString of a finite Number reads back as the same Number: parseFloat of
    it is the Number itself (ECMAScript 6.1.6.1.20, Number::toString). *)
Hypothesis decimal_to_string_reparse : forall lit : string,
  number_to_string (parseFloat (decimal_to_string lit)) = decimal_to_string lit.

(** n3's [DataFactory.literal] for a Number value: with no datatype it picks
    xsd:integer or xsd:double and writes infinities as INF / -INF. *)
Definition literal_number (n : js_number) (d : option string) : term :=
  let dt := match d with Some d => d | None => "" end in
  if String.eqb dt "" then
    match n with
    | JSDecimal lit =>
        Literal (decimal_to_string lit) ""
                (if decimal_is_integer lit then XSD_integer else XSD_double)
    | JSNaN => Literal "NaN" "" XSD_double
    | JSInfinity false => Literal "INF" "" XSD_double
    | JSInfinity true => Literal "-INF" "" XSD_double
    end
  else literal (number_to_string n) (DatatypeArg d).

(** *** Calendar (proleptic Gregorian, days since 1970-01-01) *)

Definition msPerDay : Z := 86400000.

(** The day of a 400-year era (from March 1 of its first year) of year-of-era
    [yoe] (years counted from March), month [m] and day [d]. *)
Definition doe_of (yoe m d : Z) : Z :=
  let mp := if (2 <? m)%Z then (m - 3)%Z else (m + 9)%Z in
  let doy := ((153 * mp + 2) / 5 + d - 1)%Z in
  (yoe * 365 + yoe / 4 - yoe / 100 + doy)%Z.

Definition days_from_civil (y m d : Z) : Z :=
  let y' := if (m <=? 2)%Z then (y - 1)%Z else y in
  let era := (y' / 400)%Z in
  let yoe := (y' - era * 400)%Z in
  (era * 146097 + doe_of yoe m d - 719468)%Z.

(** The inverse of [doe_of]: year-of-era (counted from March), month, day. *)
Definition civil_of_doe (doe : Z) : Z * Z * Z :=
  let yoe := ((doe - doe / 1460 + doe / 36524 - doe / 146096) / 365)%Z in
  let doy := (doe - (365 * yoe + yoe / 4 - yoe / 100))%Z in
  let mp := ((5 * doy + 2) / 153)%Z in
  let d := (doy - (153 * mp + 2) / 5 + 1)%Z in
  let m := if (mp <? 10)%Z then (mp + 3)%Z else (mp - 9)%Z in
  (yoe, m, d).

Definition civil_from_days (z0 : Z) : Z * Z * Z :=
  let z := (z0 + 719468)%Z in
  let era := (z / 146097)%Z in
  let doe := (z - era * 146097)%Z in
  let '(yoe, m, d) := civil_of_doe doe in
  let y := (yoe + era * 400)%Z in
  ((if (m <=? 2)%Z then (y + 1)%Z else y), m, d).

Definition is_leap (y : Z) : bool :=
  (Z.eqb (y mod 4) 0 && negb (Z.eqb (y mod 100) 0)) || Z.eqb (y mod 400) 0.

Definition days_in_month (y m : Z) : Z :=
  if (m =? 2)%Z then (if is_leap y then 29 else 28)%Z
  else if (m =? 4)%Z || (m =? 6)%Z || (m =? 9)%Z || (m =? 11)%Z then 30%Z
  else 31%Z.

(** *** The ISO date-time string format (ECMAScript 21.4.1.32) *)

Definition digit_val (c : ascii) : Z := (Z.of_nat (nat_of_ascii c) - 48)%Z.

(** Exactly [k] decimal digits at the head of [s]. *)
Fixpoint take_digits (k : nat) (acc : Z) (s : string) : option (Z * string) :=
  match k with
  | O => Some (acc, s)
  | S k' =>
      match s with
      | String c s' =>
          if is_digit c then take_digits k' (acc * 10 + digit_val c)%Z s' else None
      | EmptyString => None
      end
  end.

Record iso_fields : Type := {
  f_year : Z; f_month : Z; f_day : Z;
  f_hour : Z; f_minute : Z; f_second : Z; f_ms : Z;
  f_has_time : bool;
  f_offset : option Z   (* minutes east of UTC given by Z or +HH:mm *)
}.

(** [YYYY], [YYYY-MM] or [YYYY-MM-DD]. *)
Definition parse_date_part (s : string) : option (Z * Z * Z * string) :=
  match take_digits 4 0 s with
  | None => None
  | Some (y, r) =>
      match r with
      | String "-" r1 =>
          match take_digits 2 0 r1 with
          | None => None
          | Some (m, String "-" r3) =>
              match take_digits 2 0 r3 with
              | Some (d, r4) => Some (y, m, d, r4)
              | None => None
              end
          | Some (m, r2) => Some (y, m, 1%Z, r2)
          end
      | _ => Some (y, 1%Z, 1%Z, r)
      end
  end.

(** [.s], [.ss] or [.sss], as milliseconds. *)
Definition parse_fraction (s : string) : option (Z * string) :=
  match s with
  | String "." r =>
      match take_digits 1 0 r with
      | None => None
      | Some (a, r1) =>
          match take_digits 1 0 r1 with
          | None => Some (a * 100, r1)%Z
          | Some (b, r2) =>
              match take_digits 1 0 r2 with
              | None => Some (a * 100 + b * 10, r2)%Z
              | Some (c, r3) => Some (a * 100 + b * 10 + c, r3)%Z
              end
          end
      end
  | _ => Some (0%Z, s)
  end.

(** [Z], [+HH:mm], [-HH:mm] or nothing, then the end of the string. *)
Definition parse_offset (s : string) : option (option Z) :=
  match s with
  | EmptyString => Some None
  | String "Z" EmptyString => Some (Some 0%Z)
  | String sg r =>
      if Ascii.eqb sg "+" || Ascii.eqb sg "-" then
        match take_digits 2 0 r with
        | Some (hh, String ":" r2) =>
            match take_digits 2 0 r2 with
            | Some (mm, EmptyString) =>
                if (23 <? hh)%Z || (59 <? mm)%Z then None
                else Some (Some (if Ascii.eqb sg "-" then - (hh * 60 + mm) else hh * 60 + mm)%Z)
            | _ => None
            end
        | _ => None
        end
      else None
  end.

(** [THH:mm], [THH:mm:ss] or [THH:mm:ss.sss] followed by the offset. *)
Definition parse_time_part (s : string) : option (Z * Z * Z * Z * option Z) :=
  match take_digits 2 0 s with
  | Some (hh, String ":" r1) =>
      match take_digits 2 0 r1 with
      | None => None
      | Some (mi, String ":" r2) =>
          match take_digits 2 0 r2 with
          | None => None
          | Some (ss, r3) =>
              match parse_fraction r3 with
              | None => None
              | Some (ms, r4) =>
                  match parse_offset r4 with
                  | Some off => Some (hh, mi, ss, ms, off)
                  | None => None
                  end
              end
          end
      | Some (mi, r2) =>
          match parse_offset r2 with
          | Some off => Some (hh, mi, 0%Z, 0%Z, off)
          | None => None
          end
      end
  | _ => None
  end.

(** The string in the ISO format, or [None] when it is not in it. *)
Definition parse_iso (s : string) : option iso_fields :=
  match parse_date_part s with
  | None => None
  | Some (y, m, d, EmptyString) =>
      Some {| f_year := y; f_month := m; f_day := d; f_hour := 0; f_minute := 0;
              f_second := 0; f_ms := 0; f_has_time := false; f_offset := Some 0%Z |}
  | Some (y, m, d, String "T" r) =>
      match parse_time_part r with
      | Some (hh, mi, ss, ms, off) =>
          Some {| f_year := y; f_month := m; f_day := d; f_hour := hh; f_minute := mi;
                  f_second := ss; f_ms := ms; f_has_time := true; f_offset := off |}
      | None => None
      end
  | Some _ => None
  end.

(** Legal element values; an illegal one makes the result NaN. *)
Definition iso_legal (f : iso_fields) : bool :=
  (1 <=? f.(f_month))%Z && (f.(f_month) <=? 12)%Z &&
  (1 <=? f.(f_day))%Z && (f.(f_day) <=? days_in_month f.(f_year) f.(f_month))%Z &&
  (f.(f_minute) <=? 59)%Z && (f.(f_second) <=? 59)%Z &&
  ((f.(f_hour) <=? 23)%Z ||
   ((f.(f_hour) =? 24)%Z && (f.(f_minute) =? 0)%Z && (f.(f_second) =? 0)%Z && (f.(f_ms) =? 0)%Z)).

(** TimeClip *)
Definition time_clip (t : Z) : option Z :=
  if (Z.abs t <=? 8640000000000000)%Z then Some t else None.

(** The time value of legal fields: UTC for date-only forms and explicit
    offsets, local time for date-time forms without an offset. *)
Definition iso_time (f : iso_fields) : Z :=
  let local := (days_from_civil f.(f_year) f.(f_month) f.(f_day) * msPerDay
                + ((f.(f_hour) * 60 + f.(f_minute)) * 60 + f.(f_second)) * 1000 + f.(f_ms))%Z in
  match f.(f_offset) with
  | Some o => (local - o * 60000)%Z
  | None => (local - tza)%Z
  end.

(** [Date.parse(s)] / the time value of [new Date(s)], [None] for NaN. *)
Definition date_parse (s : string) : option Z :=
  match parse_iso s with
  | Some f => if iso_legal f then time_clip (iso_time f) else None
  | None => date_parse_other s
  end.

(** *** [Date.prototype.toISOString] *)

Definition digit_char (d : Z) : ascii := ascii_of_nat (Z.to_nat d + 48).

(** [n] decimal digits of [x], zero-padded. *)
Fixpoint pad_digits (n : nat) (x : Z) : string :=
  match n with
  | O => EmptyString
  | S n' => pad_digits n' (x / 10)%Z ++ String (digit_char (x mod 10)%Z) EmptyString
  end.

Definition year_string (y : Z) : string :=
  if (0 <=? y)%Z && (y <=? 9999)%Z then pad_digits 4 y
  else (if (y <? 0)%Z then "-" else "+") ++ pad_digits 6 (Z.abs y).

Definition iso_string (t : Z) : string :=
  let '(y, m, d) := civil_from_days (t / msPerDay)%Z in
  let ms := (t mod msPerDay)%Z in
  year_string y ++ "-" ++ pad_digits 2 m ++ "-" ++ pad_digits 2 d ++ "T"
  ++ pad_digits 2 (ms / 3600000)%Z ++ ":" ++ pad_digits 2 ((ms / 60000) mod 60)%Z ++ ":"
  ++ pad_digits 2 ((ms / 1000) mod 60)%Z ++ "." ++ pad_digits 3 (ms mod 1000)%Z ++ "Z".

(** A thrown JavaScript exception. *)
Inductive js_error : Type :=
| RangeError
| IndexSizeError.

(** [new Date(s).toISOString()]: throws RangeError on an invalid date. *)
Definition date_toISOString (s : string) : js_error + string :=
  match date_parse s with
  | Some t => inr (iso_string t)
  | None => inl RangeError
  end.

(* ------------------------------------------------------------------ *)
(** ** DOM form controls *)

(** The element returned by [createEditor] (and the language chooser). *)
Inductive control : Type :=
| CInput (type_ : string)   (* <input type=...> *)
| CTextArea                 (* <textarea> *)
| CSelect.                  (* <select> *)

(** The UI-enforced constraints of a control ([required], [minlength],
    [maxlength], [pattern], [min], [max], [step]) and its placeholder. *)
Record constraints : Type := {
  c_required : bool;
  c_minLength : option Z;
  c_maxLength : option Z;
  c_pattern : option string;
  c_min : option Q;
  c_max : option Q;
  c_step : option string;
  c_placeholder : option string
}.

Definition no_constraints : constraints :=
  {| c_required := false; c_minLength := None; c_maxLength := None; c_pattern := None;
     c_min := None; c_max := None; c_step := None; c_placeholder := None |}.

(** The state of a control: the value of an input or textarea, the
    checkedness of a checkbox, the options of a select as (value, text)
    with the index of the selected one, its constraints and [data-path]. *)
Record widget : Type := {
  w_control : control;
  w_value : string;
  w_checked : bool;
  w_options : list (string * string);
  w_selected : option nat;
  w_cons : constraints;
  w_path : string
}.

Definition new_widget (c : control) : widget :=
  {| w_control := c; w_value := ""; w_checked := false; w_options := [];
     w_selected := None; w_cons := no_constraints; w_path := "" |}.

Definition with_value (w : widget) (v : string) : widget :=
  {| w_control := w.(w_control); w_value := v; w_checked := w.(w_checked);
     w_options := w.(w_options); w_selected := w.(w_selected); w_cons := w.(w_cons);
     w_path := w.(w_path) |}.

Definition with_checked (w : widget) (b : bool) : widget :=
  {| w_control := w.(w_control); w_value := w.(w_value); w_checked := b;
     w_options := w.(w_options); w_selected := w.(w_selected); w_cons := w.(w_cons);
     w_path := w.(w_path) |}.

Definition with_selection (w : widget) (opts : list (string * string)) (sel : option nat) : widget :=
  {| w_control := w.(w_control); w_value := w.(w_value); w_checked := w.(w_checked);
     w_options := opts; w_selected := sel; w_cons := w.(w_cons); w_path := w.(w_path) |}.

Definition with_cons (w : widget) (c : constraints) : widget :=
  {| w_control := w.(w_control); w_value := w.(w_value); w_checked := w.(w_checked);
     w_options := w.(w_options); w_selected := w.(w_selected); w_cons := c;
     w_path := w.(w_path) |}.

Definition with_path (w : widget) (p : string) : widget :=
  {| w_control := w.(w_control); w_value := w.(w_value); w_checked := w.(w_checked);
     w_options := w.(w_options); w_selected := w.(w_selected); w_cons := w.(w_cons);
     w_path := p |}.

Definition set_required (c : constraints) (b : bool) : constraints :=
  {| c_required := b; c_minLength := c.(c_minLength); c_maxLength := c.(c_maxLength);
     c_pattern := c.(c_pattern); c_min := c.(c_min); c_max := c.(c_max);
     c_step := c.(c_step); c_placeholder := c.(c_placeholder) |}.

Definition set_minLength (c : constraints) (n : Z) : constraints :=
  {| c_required := c.(c_required); c_minLength := Some n; c_maxLength := c.(c_maxLength);
     c_pattern := c.(c_pattern); c_min := c.(c_min); c_max := c.(c_max);
     c_step := c.(c_step); c_placeholder := c.(c_placeholder) |}.

Definition set_maxLength (c : constraints) (n : Z) : constraints :=
  {| c_required := c.(c_required); c_minLength := c.(c_minLength); c_maxLength := Some n;
     c_pattern := c.(c_pattern); c_min := c.(c_min); c_max := c.(c_max);
     c_step := c.(c_step); c_placeholder := c.(c_placeholder) |}.

Definition set_pattern (c : constraints) (s : string) : constraints :=
  {| c_required := c.(c_required); c_minLength := c.(c_minLength); c_maxLength := c.(c_maxLength);
     c_pattern := Some s; c_min := c.(c_min); c_max := c.(c_max);
     c_step := c.(c_step); c_placeholder := c.(c_placeholder) |}.

Definition set_min (c : constraints) (q : Q) : constraints :=
  {| c_required := c.(c_required); c_minLength := c.(c_minLength); c_maxLength := c.(c_maxLength);
     c_pattern := c.(c_pattern); c_min := Some q; c_max := c.(c_max);
     c_step := c.(c_step); c_placeholder := c.(c_placeholder) |}.

Definition set_max (c : constraints) (q : Q) : constraints :=
  {| c_required := c.(c_required); c_minLength := c.(c_minLength); c_maxLength := c.(c_maxLength);
     c_pattern := c.(c_pattern); c_min := c.(c_min); c_max := Some q;
     c_step := c.(c_step); c_placeholder := c.(c_placeholder) |}.

Definition set_step (c : constraints) (s : string) : constraints :=
  {| c_required := c.(c_required); c_minLength := c.(c_minLength); c_maxLength := c.(c_maxLength);
     c_pattern := c.(c_pattern); c_min := c.(c_min); c_max := c.(c_max);
     c_step := Some s; c_placeholder := c.(c_placeholder) |}.

Definition set_placeholder (c : constraints) (s : string) : constraints :=
  {| c_required := c.(c_required); c_minLength := c.(c_minLength); c_maxLength := c.(c_maxLength);
     c_pattern := c.(c_pattern); c_min := c.(c_min); c_max := c.(c_max);
     c_step := c.(c_step); c_placeholder := Some s |}.

(** A string without its line feeds and carriage returns. *)
Fixpoint strip_newlines (s : string) : string :=
  match s with
  | String c r =>
      if Ascii.eqb c "010" || Ascii.eqb c "013" then strip_newlines r
      else String c (strip_newlines r)
  | EmptyString => EmptyString
  end.

(** Every CR LF pair and every lone CR replaced by LF. *)
Fixpoint normalize_newlines (s : string) : string :=
  match s with
  | String c r =>
      if Ascii.eqb c "013" then
        String "010" (match r with
                      | String c2 r2 =>
                          if Ascii.eqb c2 "010" then normalize_newlines r2
                          else normalize_newlines r
                      | EmptyString => EmptyString
                      end)
      else String c (normalize_newlines r)
  | EmptyString => EmptyString
  end.

Fixpoint digits_only (s : string) : bool :=
  match s with
  | String c r => is_digit c && digits_only r
  | EmptyString => true
  end.

Definition is_exp_marker (c : ascii) : bool := Ascii.eqb c "e" || Ascii.eqb c "E".

(** What follows the [e] or [E] of a valid floating-point number. *)
Definition float_exponent (s : string) : bool :=
  match s with
  | String c r =>
      if Ascii.eqb c "+" || Ascii.eqb c "-" then str_truthy r && digits_only r
      else digits_only s
  | EmptyString => false
  end.

(** The digits after the [.] ([seen]: one has been read), then an optional
    exponent. *)
Fixpoint float_fraction (seen : bool) (s : string) : bool :=
  match s with
  | String c r =>
      if is_digit c then float_fraction true r
      else if is_exp_marker c then seen && float_exponent r
      else false
  | EmptyString => seen
  end.

(** The digits before the [.], then an optional fraction and exponent. *)
Fixpoint float_integer (seen : bool) (s : string) : bool :=
  match s with
  | String c r =>
      if is_digit c then float_integer true r
      else if Ascii.eqb c "." then float_fraction false r
      else if is_exp_marker c then seen && float_exponent r
      else false
  | EmptyString => seen
  end.

(** A valid floating-point number (HTML 2.3.4.3): an optional [-], digits
    and/or [.] followed by digits, and an optional exponent. *)
Definition valid_float (s : string) : bool :=
  match s with
  | String c r => if Ascii.eqb c "-" then float_integer false r else float_integer false s
  | EmptyString => false
  end.

(** A valid date string at the head of [s] (HTML 2.3.5.2): a year of four
    or more digits greater than zero, [-], a month of two digits, [-], a
    day of two digits that exists in that month.  The year's digits, the
    fields and the rest of [s]. *)
Definition parse_html_date (s : string) : option (string * Z * Z * Z * string) :=
  let k := count_digits s in
  if (k <? 4)%nat then None else
  match take_digits k 0 s with
  | Some (y, String "-" r1) =>
      match take_digits 2 0 r1 with
      | Some (m, String "-" r2) =>
          match take_digits 2 0 r2 with
          | Some (d, r3) =>
              if (0 <? y)%Z && (1 <=? m)%Z && (m <=? 12)%Z && (1 <=? d)%Z &&
                 (d <=? days_in_month y m)%Z
              then Some (slice0 s k, y, m, d, r3) else None
          | None => None
          end
      | _ => None
      end
  | _ => None
  end.

(** A valid time string at the head of [s] (HTML 2.3.5.4): [HH:mm], then
    optionally [:ss] and then optionally [.] and one to three digits.  The
    hour, minute, second, the fraction's digits and the rest of [s]. *)
Definition parse_html_time (s : string) : option (Z * Z * Z * string * string) :=
  match take_digits 2 0 s with
  | Some (hh, String ":" r1) =>
      match take_digits 2 0 r1 with
      | Some (mi, r2) =>
          if (hh <=? 23)%Z && (mi <=? 59)%Z then
            match r2 with
            | String ":" r3 =>
                match take_digits 2 0 r3 with
                | Some (ss, r4) =>
                    if (ss <=? 59)%Z then
                      match r4 with
                      | String "." r5 =>
                          let k := count_digits r5 in
                          if (1 <=? k)%nat && (k <=? 3)%nat
                          then Some (hh, mi, ss, slice0 r5 k, drop k r5) else None
                      | _ => Some (hh, mi, ss, EmptyString, r4)
                      end
                    else None
                | None => None
                end
            | _ => Some (hh, mi, 0%Z, EmptyString, r2)
            end
          else None
      | None => None
      end
  | _ => None
  end.

Definition valid_date_string (s : string) : bool :=
  match parse_html_date s with
  | Some (_, _, _, _, EmptyString) => true
  | _ => false
  end.

Fixpoint strip_trailing_zeros (s : string) : string :=
  match s with
  | String c r =>
      let r' := strip_trailing_zeros r in
      if Ascii.eqb c "0" && negb (str_truthy r') then EmptyString else String c r'
  | EmptyString => EmptyString
  end.

(** The digits of a year without the leading zeros beyond four digits. *)
Fixpoint trim_year (s : string) : string :=
  match s with
  | String c r => if Ascii.eqb c "0" && (4 <=? String.length r)%nat then trim_year r else s
  | EmptyString => EmptyString
  end.

(** The shortest valid time string of a time: no seconds when they and the
    fraction are zero, no trailing zeros in the fraction. *)
Definition normalized_time (hh mi ss : Z) (frac : string) : string :=
  let f := strip_trailing_zeros frac in
  pad_digits 2 hh ++ ":" ++ pad_digits 2 mi ++
  (if (ss =? 0)%Z && negb (str_truthy f) then EmptyString
   else ":" ++ pad_digits 2 ss ++ (if str_truthy f then "." ++ f else EmptyString)).

(** The value sanitization of [datetime-local]: a valid local date and time
    string (a date, [T] or a space, a time) becomes the valid normalized
    local date and time string of the same date and time; anything else
    becomes [""]. *)
Definition sanitize_datetime_local (s : string) : string :=
  match parse_html_date s with
  | Some (ys, y, m, d, String sep r) =>
      if Ascii.eqb sep "T" || Ascii.eqb sep " " then
        match parse_html_time r with
        | Some (hh, mi, ss, frac, EmptyString) =>
            trim_year ys ++ "-" ++ pad_digits 2 m ++ "-" ++ pad_digits 2 d ++ "T"
            ++ normalized_time hh mi ss frac
        | _ => ""
        end
      else ""
  | _ => ""
  end.

(** The value sanitization algorithm of a control (HTML 4.10.5.1): a text
    input strips line breaks; a number input keeps a valid floating-point
    number and blanks anything else; a date input keeps a valid date string
    and blanks anything else; a datetime-local input normalizes; a checkbox
    keeps its value.  A textarea has none: its raw value is stored as
    given. *)
Definition sanitize (c : control) (v : string) : string :=
  match c with
  | CInput ty =>
      if String.eqb ty "text" then strip_newlines v
      else if String.eqb ty "number" then (if valid_float v then v else "")
      else if String.eqb ty "date" then (if valid_date_string v then v else "")
      else if String.eqb ty "datetime-local" then sanitize_datetime_local v
      else v
  | _ => v
  end.

(** [el.value] (getter): for a select, the value of the selected option or
    [""] when none is selected; for a textarea, its raw value with newlines
    normalized to LF (its API value); for an input, its value. *)
Definition get_value (w : widget) : string :=
  match w.(w_control) with
  | CSelect =>
      match w.(w_selected) with
      | Some i => match w.(w_options) !! i with Some (v, _) => v | None => "" end
      | None => ""
      end
  | CTextArea => normalize_newlines w.(w_value)
  | CInput _ => w.(w_value)
  end.

(** The index of the first option whose value is [v]. *)
Fixpoint find_option (opts : list (string * string)) (v : string) : option nat :=
  match opts with
  | [] => None
  | (v', _) :: rest => if String.eqb v' v then Some 0%nat else option_map S (find_option rest v)
  end.

(** [el.value = v] (setter): a select selects the first option with that
    value, or none; an input or a textarea takes [v] through its value
    sanitization. *)
Definition set_value (w : widget) (v : string) : widget :=
  match w.(w_control) with
  | CSelect => with_selection w w.(w_options) (find_option w.(w_options) v)
  | c => with_value w (sanitize c v)
  end.

(** [el.setAttribute('value', v)]: the default value of an input, which
    is its value (sanitized) while the user has not edited it; no effect
    on a textarea or a select. *)
Definition set_value_attribute (w : widget) (v : string) : widget :=
  match w.(w_control) with
  | CInput _ => with_value w (sanitize w.(w_control) v)
  | _ => w
  end.

(** [select.options.add(option)]: appended; the selectedness algorithm
    selects the first option when none is selected. *)
Definition add_option (w : widget) (v text : string) : widget :=
  with_selection w (w.(w_options) ++ [(v, text)])
    (match w.(w_selected) with Some i => Some i | None => Some 0%nat end).

(** A user choosing the option at index [i] of a select. *)
Definition select_index (w : widget) (i : nat) : widget :=
  with_selection w w.(w_options) (Some i).

(** A user ticking or unticking a checkbox, or editing an input or a
    textarea into [v]: the control holds [v] as its value sanitization
    leaves it (the user agent does not let an input hold anything else). *)
Definition user_check (w : widget) (b : bool) : widget := with_checked w b.
Definition user_input (w : widget) (v : string) : widget :=
  with_value w (sanitize w.(w_control) v).

(* ------------------------------------------------------------------ *)
(** ** The editors *)

(** [InputListEntry] *)
Record InputListEntry : Type := {
  le_value : term;
  le_label : option string
}.

(** An editor custom element: its class, its property, the control made by
    [createEditor], [required], and the language chooser of
    [InputLangString]. *)
Record input : Type := {
  i_class : EditorKind;
  property : ShaclPropertySpec;
  editor : widget;
  required : bool;
  langChooser : option widget
}.

Definition with_editor (i : input) (w : widget) : input :=
  {| i_class := i.(i_class); property := i.(property); editor := w;
     required := i.(required); langChooser := i.(langChooser) |}.

Definition with_langChooser (i : input) (w : widget) : input :=
  {| i_class := i.(i_class); property := i.(property); editor := i.(editor);
     required := i.(required); langChooser := Some w |}.

(** Truthiness of a number (0 is falsy). *)
Definition Q_truthy (q : Q) : bool := negb (Qeq_bool q 0).

Definition opt_Q_truthy (o : option Q) : bool :=
  match o with Some q => Q_truthy q | None => false end.

Definition opt_Z_truthy (o : option Z) : bool :=
  match o with Some n => negb (Z.eqb n 0) | None => false end.

(** [createEditor] of each class. *)
Definition createEditor (k : EditorKind) (p : ShaclPropertySpec) : widget :=
  match k with
  | InputDate =>
      if bool_decide (p.(datatype) = Some XSD_dateTime)
      then new_widget (CInput "datetime-local") else new_widget (CInput "date")
  | InputText | InputLangString =>
      if bool_decide (p.(singleLine) = Some false)
      then new_widget CTextArea else new_widget (CInput "text")
  | InputBoolean => new_widget (CInput "checkbox")
  | InputNumber => new_widget (CInput "number")
  | InputList => new_widget CSelect
  end.

(** [this.property.minCount !== undefined && this.property.minCount > 0] *)
Definition is_required (p : ShaclPropertySpec) : bool :=
  match p.(minCount) with Some n => (0 <? n)%Z | None => false end.

(** The placeholder of [InputBase]: description, else pattern, else null
    (written [""], which is falsy like null). *)
Definition placeholder_of (p : ShaclPropertySpec) : string :=
  match p.(description) with
  | Some d => d
  | None => match p.(pattern) with Some s => s | None => "" end
  end.

Definition default_value_str (p : ShaclPropertySpec) : string :=
  match p.(defaultValue) with Some t => term_value t | None => "" end.

(** The [InputBase] constructor. *)
Definition InputBase_new (k : EditorKind) (p : ShaclPropertySpec) : input :=
  let req := is_required p in
  let w := createEditor k p in
  let w := set_value_attribute w (default_value_str p) in
  let w := with_path w p.(path) in
  let ph := placeholder_of p in
  let w := if str_truthy ph then with_cons w (set_placeholder w.(w_cons) ph) else w in
  let w := if req then with_cons w (set_required w.(w_cons) true) else w in
  {| i_class := k; property := p; editor := w; required := req; langChooser := None |}.

(** [input.minLength = n], [input.maxLength = n], [input.pattern = s] on
    the control: a textarea has [minLength] and [maxLength] but no
    [pattern] property (the assignment only adds an expando). *)
Definition apply_minLength (w : widget) (n : Z) : widget :=
  with_cons w (set_minLength w.(w_cons) n).
Definition apply_maxLength (w : widget) (n : Z) : widget :=
  with_cons w (set_maxLength w.(w_cons) n).
Definition apply_pattern (w : widget) (s : string) : widget :=
  match w.(w_control) with
  | CTextArea => w
  | _ => with_cons w (set_pattern w.(w_cons) s)
  end.

(** The WebIDL conversion of a number to [long] (wrapping modulo 2^32). *)
Definition idl_long (n : Z) : Z := ((n + 2 ^ 31) mod 2 ^ 32 - 2 ^ 31)%Z.

(** [input.minLength = n] / [input.maxLength = n]: these attributes are
    limited to non-negative numbers, so a negative value throws an
    IndexSizeError DOMException. *)
Definition set_length (f : widget -> Z -> widget) (w : widget) (n : Z) : js_error + widget :=
  let n' := idl_long n in
  if (n' <? 0)%Z then inl IndexSizeError else inr (f w n').

(** The [InputText] constructor body after [super(property)]; it throws
    when an assignment throws. *)
Definition InputText_init (i : input) : js_error + input :=
  let p := i.(property) in
  let w := i.(editor) in
  match (match p.(minLength) with
         | Some n => if opt_Z_truthy (Some n) then set_length apply_minLength w n else inr w
         | None => inr w end) with
  | inl e => inl e
  | inr w =>
      match (match p.(maxLength) with
             | Some n => if opt_Z_truthy (Some n) then set_length apply_maxLength w n else inr w
             | None => inr w end) with
      | inl e => inl e
      | inr w =>
          let w := match p.(pattern) with
                   | Some s => if str_truthy s then apply_pattern w s else w
                   | None => w end in
          inr (with_editor i w)
      end
  end.

Definition InputText_new (p : ShaclPropertySpec) : js_error + input :=
  InputText_init (InputBase_new InputText p).

(** [createLangChooser] *)
Definition createLangChooser (p : ShaclPropertySpec) : widget :=
  match p.(languageIn) with
  | [] => with_cons (new_widget (CInput "text")) (set_maxLength no_constraints 5)
  | langs => fold_left (fun w lang => add_option w lang lang) langs (new_widget CSelect)
  end.

Definition InputLangString_new (p : ShaclPropertySpec) : js_error + input :=
  match InputText_init (InputBase_new InputLangString p) with
  | inl e => inl e
  | inr i => inr (with_langChooser i (createLangChooser p))
  end.

Definition InputBoolean_new (p : ShaclPropertySpec) : input :=
  let i := InputBase_new InputBoolean p in
  with_editor i (with_cons i.(editor) (set_required i.(editor).(w_cons) false)).

(** [min] and [max] of the [InputNumber] constructor. *)
Definition number_min (p : ShaclPropertySpec) : option Q :=
  if opt_Q_truthy p.(minInclusive) then p.(minInclusive)
  else if opt_Q_truthy p.(minExclusive) then option_map (fun q => q + 1)%Q p.(minExclusive)
  else None.

Definition number_max (p : ShaclPropertySpec) : option Q :=
  if opt_Q_truthy p.(maxInclusive) then p.(maxInclusive)
  else if opt_Q_truthy p.(maxExclusive) then option_map (fun q => q - 1)%Q p.(maxExclusive)
  else None.

Definition InputNumber_new (p : ShaclPropertySpec) : input :=
  let i := InputBase_new InputNumber p in
  let w := i.(editor) in
  let w := match number_min p with
           | Some q => if Q_truthy q then with_cons w (set_min w.(w_cons) q) else w
           | None => w end in
  let w := match number_max p with
           | Some q => if Q_truthy q then with_cons w (set_max w.(w_cons) q) else w
           | None => w end in
  let w := if bool_decide (p.(datatype) = Some XSD_integer) then w
           else with_cons w (set_step w.(w_cons) "0.1") in
  with_editor i w.

Definition InputDate_new (p : ShaclPropertySpec) : input := InputBase_new InputDate p.

(** The option [setListEntries] adds for an entry: (value, text). *)
Definition entry_option (item : InputListEntry) : string * string :=
  (term_value item.(le_value),
   match item.(le_label) with
   | Some l => if str_truthy l then l else term_value item.(le_value)
   | None => term_value item.(le_value) end).

(** [setListEntries]: the empty option, then one option per entry. *)
Definition setListEntries (w : widget) (list : list InputListEntry) : widget :=
  fold_left (fun w item => add_option w (entry_option item).1 (entry_option item).2)
    list (add_option w "" "").

Definition InputList_new (p : ShaclPropertySpec) (listEntries : option (list InputListEntry)) : input :=
  let i := InputBase_new InputList p in
  match listEntries with
  | Some l => with_editor i (setListEntries i.(editor) l)
  | None => i
  end.

(** The constructor of each class ([entries] is used by [InputList]);
    those of [InputText] and [InputLangString] can throw. *)
Definition construct (k : EditorKind) (p : ShaclPropertySpec)
    (entries : option (list InputListEntry)) : js_error + input :=
  match k with
  | InputText => InputText_new p
  | InputLangString => InputLangString_new p
  | InputNumber => inr (InputNumber_new p)
  | InputDate => inr (InputDate_new p)
  | InputBoolean => inr (InputBoolean_new p)
  | InputList => inr (InputList_new p entries)
  end.

(** [(el as HTMLInputElement).type === ty] *)
Definition control_type_is (w : widget) (ty : string) : bool :=
  match w.(w_control) with CInput t => String.eqb t ty | _ => false end.

(** [InputBase.setValue] *)
Definition base_setValue (i : input) (t : term) : input :=
  with_editor i (set_value i.(editor) (term_value t)).

(** [setValue] of each class; [InputDate] can throw. *)
Definition setValue (i : input) (t : term) : js_error + input :=
  match i.(i_class) with
  | InputDate =>
      match date_toISOString (term_value t) with
      | inl e => inl e
      | inr iso =>
          let iso := if control_type_is i.(editor) "datetime-local"
                     then slice0 iso 19 else slice0 iso 10 in
          inr (base_setValue i (literal iso (DatatypeArg i.(property).(datatype))))
      end
  | InputLangString =>
      let i' := base_setValue i t in
      match t, i'.(langChooser) with
      | Literal _ lang _, Some ch => inr (with_langChooser i' (set_value ch lang))
      | _, _ => inr i'
      end
  | InputBoolean =>
      match t with
      | Literal v _ _ => inr (with_editor i (with_checked i.(editor) (String.eqb v "true")))
      | NamedNode _ => inr i
      end
  | InputText | InputNumber | InputList => inr (base_setValue i t)
  end.

(** [this.property.class || this.property.nodeKind?.id === `${PREFIX_SHACL}IRI`] *)
Definition is_iri (p : ShaclPropertySpec) : bool :=
  (match p.(class) with Some _ => true | None => false end)
  || bool_decide (p.(nodeKind) = Some SHACL_IRI).

(** The IRI / literal choice of [InputText] and [InputList]. *)
Definition iri_or_literal (p : ShaclPropertySpec) (v : string) : term :=
  if is_iri p then NamedNode v else literal v (DatatypeArg p.(datatype)).

Definition chooser_value (i : input) : string :=
  match i.(langChooser) with Some ch => get_value ch | None => "" end.

(** [toRDFObject] of each class ([None] is [undefined]). *)
Definition toRDFObject (i : input) : option term :=
  let p := i.(property) in
  let v := get_value i.(editor) in
  match i.(i_class) with
  | InputText | InputList =>
      if str_truthy v then Some (iri_or_literal p v) else None
  | InputLangString =>
      if str_truthy v then
        Some (literal v (if str_truthy (chooser_value i) then LangArg (chooser_value i)
                         else DatatypeArg p.(datatype)))
      else None
  | InputBoolean =>
      let c := i.(editor).(w_checked) in
      if c || i.(required)
      then Some (literal (if c then "true" else "false") (DatatypeArg p.(datatype)))
      else None
  | InputNumber =>
      if str_truthy v then Some (literal_number (parseFloat v) p.(datatype)) else None
  | InputDate =>
      if str_truthy v then Some (literal v (DatatypeArg p.(datatype))) else None
  end.

(* ------------------------------------------------------------------ *)
(** ** Runs of an editor *)

(** One step on a mounted editor: the host calls [setValue], or the user
    types into an input, ticks a checkbox, picks an option, or edits the
    language chooser. *)
Inductive step : input -> input -> Prop :=
| step_setValue i t i' :
    setValue i t = inr i' -> step i i'
| step_type i v :
    i.(editor).(w_control) <> CSelect ->
    step i (with_editor i (user_input i.(editor) v))
| step_check i b :
    i.(editor).(w_control) = CInput "checkbox" ->
    step i (with_editor i (user_check i.(editor) b))
| step_choose i n :
    i.(editor).(w_control) = CSelect -> (n < length i.(editor).(w_options))%nat ->
    step i (with_editor i (select_index i.(editor) n))
| step_lang_type i ch v :
    i.(langChooser) = Some ch -> ch.(w_control) <> CSelect ->
    step i (with_langChooser i (user_input ch v))
| step_lang_choose i ch n :
    i.(langChooser) = Some ch -> ch.(w_control) = CSelect ->
    (n < length ch.(w_options))%nat ->
    step i (with_langChooser i (select_index ch n)).

Definition steps : input -> input -> Prop := rtc step.

(** The editor [inputFactory] builds for [p]; [entries] stands for the
    result of [createInputListEntries] (src/util.ts is not under src). *)
Definition factory_editor (lists : lists_map) (p : ShaclPropertySpec)
    (entries : list InputListEntry) : js_error + input :=
  construct (fst (inputFactory lists p)) p (Some entries).

(** An editor built by [inputFactory] after any run. *)
Definition reachable (i : input) : Prop :=
  exists lists p entries i0, factory_editor lists p entries = inr i0 /\ steps i0 i.

(* ------------------------------------------------------------------ *)
(** ** The resolution order of the spec (section 4.1) *)

(** [first_match rules]: the kind of the first rule whose guard holds. *)
Fixpoint first_match (rules : list (bool * EditorKind)) : option EditorKind :=
  match rules with
  | [] => None
  | (g, k) :: rest => if g then Some k else first_match rest
  end.

Definition has_list (lists : lists_map) (p : ShaclPropertySpec) : bool :=
  match p.(shaclIn) with
  | Some id =>
      str_truthy id &&
      match lists !! id with Some (_ :: _) => true | _ => false end
  | None => false
  end.

(** Rules 2 to 4, on the datatype with the XSD namespace removed. *)
Definition fallback_rules (p : ShaclPropertySpec) : list (bool * EditorKind) :=
  let stripped := option_map (js_replace_first PREFIX_XSD) p.(datatype) in
  let is_one_of (names : list string) :=
    match stripped with Some s => existsb (String.eqb s) names | None => false end in
  [ (bool_decide (p.(datatype) = Some RDF_langString)
     || negb (bool_decide (p.(languageIn) = [])), InputLangString);
    (is_one_of ["string"], InputText);
    (is_one_of ["integer"; "float"; "double"; "decimal"], InputNumber);
    (is_one_of ["date"; "dateTime"], InputDate);
    (is_one_of ["boolean"], InputBoolean);
    (true, InputText) ].

Definition resolution_rules (lists : lists_map) (p : ShaclPropertySpec)
  : list (bool * EditorKind) :=
  (has_list lists p, InputList) :: fallback_rules p.

Definition resolve_spec (rules : list (bool * EditorKind)) : EditorKind :=
  match first_match rules with Some k => k | None => InputText end.

(* ------------------------------------------------------------------ *)
(** ** Concrete property specs *)

Definition plain_property (dt : option string) : ShaclPropertySpec :=
  {| path := "http://example.org/p"; datatype := dt; class := None; nodeKind := None;
     minCount := None; minLength := None; maxLength := None; pattern := None;
     minInclusive := None; maxInclusive := None; minExclusive := None; maxExclusive := None;
     singleLine := None; languageIn := []; shaclIn := None; defaultValue := None;
     label := "p"; description := None |}.

(** PropertySpec{datatype=xsd:integer, minInclusive=0, maxExclusive=10} *)
Definition integer_range_property : ShaclPropertySpec :=
  {| path := "http://example.org/age"; datatype := Some XSD_integer; class := None;
     nodeKind := None; minCount := None; minLength := None; maxLength := None;
     pattern := None; minInclusive := Some 0%Q; maxInclusive := None;
     minExclusive := None; maxExclusive := Some 10%Q; singleLine := None;
     languageIn := []; shaclIn := None; defaultValue := None; label := "age";
     description := None |}.

(** An xsd:string property with [sh:maxLength 0]. *)
Definition empty_text_property : ShaclPropertySpec :=
  {| path := "http://example.org/code"; datatype := Some XSD_string; class := None;
     nodeKind := None; minCount := None; minLength := None; maxLength := Some 0%Z;
     pattern := None; minInclusive := None; maxInclusive := None;
     minExclusive := None; maxExclusive := None; singleLine := None;
     languageIn := []; shaclIn := None; defaultValue := None; label := "code";
     description := None |}.

(** A multi-line xsd:string property with a pattern. *)
Definition multiline_pattern_property : ShaclPropertySpec :=
  {| path := "http://example.org/notes"; datatype := Some XSD_string; class := None;
     nodeKind := None; minCount := None; minLength := None; maxLength := None;
     pattern := Some "[A-Z].*"; minInclusive := None; maxInclusive := None;
     minExclusive := None; maxExclusive := None; singleLine := Some false;
     languageIn := []; shaclIn := None; defaultValue := None; label := "notes";
     description := None |}.

(** PropertySpec{shaclIn="colorList"} without [class] or an IRI node kind. *)
Definition color_property : ShaclPropertySpec :=
  {| path := "http://example.org/color"; datatype := None; class := None;
     nodeKind := None; minCount := None; minLength := None; maxLength := None;
     pattern := None; minInclusive := None; maxInclusive := None;
     minExclusive := None; maxExclusive := None; singleLine := None;
     languageIn := []; shaclIn := Some "colorList"; defaultValue := None;
     label := "color"; description := None |}.

Definition color_lists : lists_map :=
  {[ "colorList" := [NamedNode "http://example.org/Red"; NamedNode "http://example.org/Blue"] ]}.

Definition color_entries : list InputListEntry :=
  [ {| le_value := NamedNode "http://example.org/Red"; le_label := Some "Red" |};
    {| le_value := NamedNode "http://example.org/Blue"; le_label := Some "Blue" |} ].

(** A language-tagged property restricted to [sh:languageIn ("de")]. *)
Definition german_text_property : ShaclPropertySpec :=
  {| path := "http://example.org/title"; datatype := Some RDF_langString; class := None;
     nodeKind := None; minCount := None; minLength := None; maxLength := None;
     pattern := None; minInclusive := None; maxInclusive := None;
     minExclusive := None; maxExclusive := None; singleLine := None;
     languageIn := ["de"]; shaclIn := None; defaultValue := None; label := "title";
     description := None |}.

(** A single-line text property with the default value "hello". *)
Definition default_text_property : ShaclPropertySpec :=
  {| path := "http://example.org/greeting"; datatype := Some XSD_string; class := None;
     nodeKind := None; minCount := None; minLength := None; maxLength := None;
     pattern := None; minInclusive := None; maxInclusive := None;
     minExclusive := None; maxExclusive := None; singleLine := None;
     languageIn := []; shaclIn := None;
     defaultValue := Some (Literal "hello" "" XSD_string); label := "greeting";
     description := None |}.

(* ------------------------------------------------------------------ *)
(** ** The configuration (src/config.ts) *)

(** A value held by a property of an object: a string, [null], an object
    (objects compare by reference, so one is kept as its allocation
    number), or [undefined] for a property the object does not have. *)
Inductive js_value : Type :=
| JStr (s : string)
| JNull
| JObj (ref : nat)
| JUndefined.

(** [a === b] *)
Definition strict_eq (a b : js_value) : bool :=
  match a, b with
  | JStr s, JStr t => String.eqb s t
  | JNull, JNull => true
  | JObj r, JObj r' => Nat.eqb r r'
  | JUndefined, JUndefined => true
  | _, _ => false
  end.

(** Truthiness of a value. *)
Definition js_truthy (v : js_value) : bool :=
  match v with
  | JStr s => str_truthy s
  | JObj _ => true
  | JNull | JUndefined => false
  end.

(** An object: its own properties in creation order, which is the order
    [Object.keys] gives for these (non-integer) keys. *)
Definition js_object : Type := list (string * js_value).

(** [o[k]] *)
Fixpoint obj_get (o : js_object) (k : string) : js_value :=
  match o with
  | [] => JUndefined
  | (k', v) :: rest => if String.eqb k' k then v else obj_get rest k
  end.

(** [o[k] = v]: an existing property keeps its place, a new one is added
    last. *)
Fixpoint obj_set (o : js_object) (k : string) (v : js_value) : js_object :=
  match o with
  | [] => [(k, v)]
  | (k', v') :: rest =>
      if String.eqb k' k then (k', v) :: rest else (k', v') :: obj_set rest k v
  end.

(** [Object.keys(o)] *)
Definition obj_keys (o : js_object) : list string := map fst o.

(** [new Config()]: the fields in declaration order with their
    initializers (TypeScript's [private] fields are ordinary properties).
    The objects it creates ([new DefaultTheme()], [{}], [[]], two
    [new Store()], [{}], [{}]) get the fresh references [h] .. [h + 6];
    [h + 7] is returned as the next free one. *)
Definition new_Config (h : nat) : js_object * nat :=
  ([("shapes", JNull); ("shapesUrl", JNull); ("shapeSubject", JNull);
    ("values", JNull); ("valuesUrl", JNull); ("valueSubject", JNull);
    ("language", JNull); ("loadOwlImports", JStr "true"); ("submitButton", JNull);
    ("_theme", JObj h); ("_lists", JObj (h + 1)); ("_groups", JObj (h + 2));
    ("_shapesGraph", JObj (h + 3)); ("_dataGraph", JObj (h + 4));
    ("_plugins", JObj (h + 5)); ("_prefixes", JObj (h + 6))], (h + 7)%nat).

(** [Config.equals(other)]; [None] stands for a falsy [other]. *)
Definition Config_equals (this : js_object) (other : option js_object) : bool :=
  match other with
  | None => false
  | Some o => forallb (fun key => strict_eq (obj_get this key) (obj_get o key)) (obj_keys this)
  end.

(** ASCII letter classes and [toUpperCase] on a lower-case ASCII letter. *)
Definition is_ascii_upper (c : ascii) : bool :=
  let n := nat_of_ascii c in (65 <=? n)%nat && (n <=? 90)%nat.

Definition is_ascii_lower_alpha (c : ascii) : bool :=
  let n := nat_of_ascii c in (97 <=? n)%nat && (n <=? 122)%nat.

Definition ascii_upper (c : ascii) : ascii :=
  if is_ascii_lower_alpha c then ascii_of_nat (nat_of_ascii c - 32) else c.

Fixpoint has_ascii_upper (s : string) : bool :=
  match s with
  | EmptyString => false
  | String c rest => is_ascii_upper c || has_ascii_upper rest
  end.

(** The name of the [dataset] entry of a [data-*] attribute (HTML,
    "getting the DOMStringMap's name-value pairs"): each [-] followed by
    a lower-case ASCII letter is removed and the letter upper-cased. *)
Fixpoint dash_to_camel (s : string) : string :=
  match s with
  | EmptyString => EmptyString
  | String c rest =>
      if Ascii.eqb c "-" then
        match rest with
        | String d rest' =>
            if is_ascii_lower_alpha d then String (ascii_upper d) (dash_to_camel rest')
            else String c (dash_to_camel rest)
        | EmptyString => String c EmptyString
        end
      else String c (dash_to_camel rest)
  end.

(** Only attributes [data-*] with no upper-case ASCII letter after the
    prefix have a [dataset] entry. *)
Definition dataset_name (attr : string) : option string :=
  if String.prefix "data-" attr then
    let rest := String.substring 5 (String.length attr - 5) attr in
    if has_ascii_upper rest then None else Some (dash_to_camel rest)
  else None.

(** [elem.dataset[key]] for an element with the attributes [attrs]
    ((name, value) in order); [None] is [undefined]. *)
Fixpoint dataset_get (attrs : list (string * string)) (key : string) : option string :=
  match attrs with
  | [] => None
  | (n, v) :: rest =>
      match dataset_name n with
      | Some k => if String.eqb k key then Some v else dataset_get rest key
      | None => dataset_get rest key
      end
  end.

(** [Config.from(elem)], with [navigator.language]; the next free
    reference is threaded through. *)
Definition Config_from (attrs : list (string * string)) (navigator_language : string) (h : nat)
  : js_object * nat :=
  let '(config, h') := new_Config h in
  let config :=
    fold_left (fun c key =>
                 match dataset_get attrs key with
                 | Some v => obj_set c key (JStr v)
                 | None => c
                 end) (obj_keys config) config in
  let config :=
    if js_truthy (obj_get config "language") then config
    else obj_set config "language" (JStr navigator_language) in
  (config, h').

(** [key.replace(/[A-Z]/g, m => "-" + m.toLowerCase())] *)
Fixpoint camel_to_kebab (s : string) : string :=
  match s with
  | EmptyString => EmptyString
  | String c rest =>
      if is_ascii_upper c then String "-" (String (ascii_lower c) (camel_to_kebab rest))
      else String c (camel_to_kebab rest)
  end.

(** [Config.keysAsDataAttributes] (it builds a [new Config()] at [h]). *)
Definition keysAsDataAttributes (h : nat) : list string :=
  map (fun key => "data-" ++ camel_to_kebab key)
    (List.filter (fun key => negb (String.prefix "_" key)) (obj_keys (fst (new_Config h)))).

(** [registerPrefixes(prefixes)]: [for (const key in prefixes)
    this._prefixes[key] = prefixes[key]], the two objects as finite maps. *)
Definition registerPrefixes {A : Type} (own prefixes : gmap string A) : gmap string A :=
  map_fold (fun key v acc => <[key := v]> acc) own prefixes.

(* ------------------------------------------------------------------ *)
(** ** Proof devices *)

(** The parts of an editor that no run changes: the kind of its control,
    the options of a select, and the same for the language chooser. *)
Definition input_shape (i : input)
  : control * list (string * string) * option (control * list (string * string)) :=
  (i.(editor).(w_control), i.(editor).(w_options),
   option_map (fun ch => (ch.(w_control), ch.(w_options))) i.(langChooser)).

(** [all_range lo n f]: [f] holds at [lo], ..., [lo + n - 1]. *)
Fixpoint all_range (lo : Z) (n : nat) (f : Z -> bool) : bool :=
  match n with
  | O => true
  | S n' => f lo && all_range (lo + 1)%Z n' f
  end.




(** The check, for every day of a 400-year era, that [civil_of_doe] gives a
    month and a day of that month. *)
Definition doe_civil_ok (doe : Z) : bool :=
  let '(yoe, m, d) := civil_of_doe doe in
  (1 <=? m)%Z && (m <=? 12)%Z && (1 <=? d)%Z &&
  (d <=? days_in_month (yoe + (if (m <=? 2)%Z then 1 else 0)) m)%Z.

(** Date and time strings of the forms the Date editor writes and reads:
    [YYYY-MM-DD], and [YYYY-MM-DDTHH:mm] with optional [:ss] and [.sss]. *)
Definition date_string (y m d : Z) : string :=
  pad_digits 4 y ++ "-" ++ pad_digits 2 m ++ "-" ++ pad_digits 2 d.

Definition local_datetime_string (y m d hh mi : Z) (sec : option (Z * option Z)) : string :=
  date_string y m d ++ "T" ++ pad_digits 2 hh ++ ":" ++ pad_digits 2 mi ++
  match sec with
  | None => ""
  | Some (ss, None) => ":" ++ pad_digits 2 ss
  | Some (ss, Some ms) => ":" ++ pad_digits 2 ss ++ "." ++ pad_digits 3 ms
  end.





(** The loop body of [Config.from]. *)
Definition from_step (attrs : list (string * string)) (c : js_object) (key : string) : js_object :=
  match dataset_get attrs key with
  | Some v => obj_set c key (JStr v)
  | None => c
  end.

(** The parts of an editor that no run changes besides [input_shape]: the
    constraints, placeholder and [data-path] of its control and of its
    language chooser. *)
Definition input_attrs (i : input) : constraints * string * option (constraints * string) :=
  (i.(editor).(w_cons), i.(editor).(w_path),
   option_map (fun ch => (ch.(w_cons), ch.(w_path))) i.(langChooser)).

(** The value of a control is one its value sanitization leaves as it is
    (this is not claimed of a datetime-local input). *)
Definition value_sanitized (w : widget) : bool :=
  control_type_is w "datetime-local" || String.eqb (sanitize w.(w_control) w.(w_value)) w.(w_value).

Definition input_sanitized (i : input) : bool :=
  value_sanitized i.(editor) &&
  match i.(langChooser) with Some ch => value_sanitized ch | None => true end.


(* ================================================================== *)
(** * Theorems *)

(** The XSD namespace is removed from an XSD datatype IRI. *)
Lemma js_replace_first_xsd (s : string) :
  js_replace_first PREFIX_XSD (PREFIX_XSD ++ s) = s.
Proof.
  unfold PREFIX_XSD. simpl. rewrite Nat.sub_0_r.
  induction s as [|c s IH]; [reflexivity|].
  simpl. f_equal. (* substring 0 (length s) s = s *)
  clear IH. induction s as [|c' s IH]; simpl; congruence.
Qed.

Lemma is_langstring_rule (p : ShaclPropertySpec) :
  is_langstring p =
  bool_decide (p.(datatype) = Some RDF_langString) || negb (bool_decide (p.(languageIn) = [])).
Proof.
  unfold is_langstring. f_equal.
  case_bool_decide as H.
  - rewrite H. apply String.eqb_refl.
  - destruct (datatype p) as [d|]; [|reflexivity].
    apply String.eqb_neq. congruence.
Qed.

Lemma datatype_switch_rules (p : ShaclPropertySpec) :
  match datatype_switch p.(datatype) with Some k => k | None => InputText end =
  resolve_spec (List.tail (fallback_rules p)).
Proof.
  unfold resolve_spec, fallback_rules, datatype_switch. cbn [List.tail first_match].
  destruct (datatype p) as [d|]; cbn [option_map existsb]; [|reflexivity].
  destruct (String.eqb _ "string"); cbn [orb]; [reflexivity|].
  destruct (String.eqb _ "integer"), (String.eqb _ "float"), (String.eqb _ "double"),
    (String.eqb _ "decimal"); cbn [orb]; try reflexivity.
  destruct (String.eqb _ "date"), (String.eqb _ "dateTime"); cbn [orb]; try reflexivity.
  destruct (String.eqb _ "boolean"); reflexivity.
Qed.

Lemma list_step_has_list (lists : lists_map) (p : ShaclPropertySpec) :
  has_list lists p = match list_step lists p with inl _ => true | inr _ => false end.
Proof.
  unfold has_list, list_step.
  destruct (shaclIn p) as [id|]; [|reflexivity].
  destruct (str_truthy id); [|reflexivity].
  destruct (lists !! id) as [[|e es]|]; reflexivity.
Qed.

(** Once the list rule is passed, [inputFactory] follows rules 2 to 4. *)
Lemma inputFactory_fallback (lists : lists_map) (p : ShaclPropertySpec) log :
  list_step lists p = inr log ->
  inputFactory lists p = (resolve_spec (fallback_rules p), log).
Proof.
  intros E. unfold inputFactory. rewrite E.
  destruct (is_langstring p) eqn:Hl; rewrite is_langstring_rule in Hl.
  - unfold resolve_spec, fallback_rules. cbn [first_match]. rewrite Hl. reflexivity.
  - pose proof (datatype_switch_rules p) as D.
    unfold resolve_spec, fallback_rules in *. cbn [first_match List.tail] in *. rewrite Hl.
    destruct (datatype_switch (datatype p)); rewrite <- D; reflexivity.
Qed.

(** C1: [inputFactory] always returns one editor class, the first of the
    ordered rules (list with a non-empty materialized list; langString or
    a non-empty languageIn; the XSD-stripped datatype string / numeric /
    date / boolean; otherwise text) that applies.  Its result type has no
    error case. *)
Theorem inputFactory_resolution_order (lists : lists_map) (p : ShaclPropertySpec) :
  fst (inputFactory lists p) = resolve_spec (resolution_rules lists p).
Proof.
  unfold resolution_rules. rewrite list_step_has_list.
  destruct (list_step lists p) as [es|log] eqn:E.
  - unfold inputFactory. rewrite E. reflexivity.
  - rewrite (inputFactory_fallback lists p log E). reflexivity.
Qed.

(** *** Invariants of runs *)

Lemma setValue_fields (i i' : input) (t : term) :
  setValue i t = inr i' ->
  i'.(i_class) = i.(i_class) /\ i'.(property) = i.(property) /\ i'.(required) = i.(required).
Proof.
  unfold setValue. intros H.
  destruct (i_class i) eqn:E; repeat case_match; simplify_eq; cbn; repeat split; auto.
Qed.

Lemma step_fields (i i' : input) :
  step i i' ->
  i'.(i_class) = i.(i_class) /\ i'.(property) = i.(property) /\ i'.(required) = i.(required).
Proof.
  intros St. destruct St; cbn; [eapply setValue_fields; eassumption|repeat split..].
Qed.

Lemma steps_fields (i i' : input) :
  steps i i' ->
  i'.(i_class) = i.(i_class) /\ i'.(property) = i.(property) /\ i'.(required) = i.(required).
Proof.
  induction 1 as [|a b c Hab _ IH]; [auto|].
  destruct (step_fields _ _ Hab) as (? & ? & ?). destruct IH as (? & ? & ?).
  split; [|split]; congruence.
Qed.

(** The [InputText] constructor body, when it does not throw, changes
    only the constraints of the control: neither its kind, value, options,
    [data-path], placeholder nor [required]. *)
Lemma InputText_init_spec (i i' : input) :
  InputText_init i = inr i' ->
  exists w, i' = with_editor i w /\
    w.(w_control) = i.(editor).(w_control) /\ w.(w_value) = i.(editor).(w_value) /\
    w.(w_checked) = i.(editor).(w_checked) /\ w.(w_options) = i.(editor).(w_options) /\
    w.(w_selected) = i.(editor).(w_selected) /\ w.(w_path) = i.(editor).(w_path) /\
    w.(w_cons).(c_placeholder) = i.(editor).(w_cons).(c_placeholder) /\
    w.(w_cons).(c_required) = i.(editor).(w_cons).(c_required).
Proof.
  unfold InputText_init, set_length, apply_pattern, apply_maxLength, apply_minLength.
  intros H. repeat (case_match; simplify_eq); eexists; (split; [reflexivity|]); cbn;
    repeat split; auto.
Qed.

Lemma construct_fields (k : EditorKind) (p : ShaclPropertySpec) es e :
  construct k p es = inr e ->
  e.(i_class) = k /\ e.(property) = p /\ e.(required) = is_required p.
Proof.
  destruct k; cbn; intros H.
  - apply InputText_init_spec in H as (w & -> & _). cbn. repeat split.
  - unfold InputLangString_new in H. destruct (InputText_init _) as [|i0] eqn:E; [discriminate|].
    injection H as <-. apply InputText_init_spec in E as (w & -> & _). cbn. repeat split.
  - injection H as <-. cbn. repeat split.
  - injection H as <-. cbn. repeat split.
  - injection H as <-. cbn. repeat split.
  - injection H as <-. destruct es; cbn; repeat split.
Qed.

(** An editor reached from [inputFactory] keeps its class, its property and
    its requiredness ([minCount > 0]). *)
Lemma reachable_fields (i : input) :
  reachable i ->
  exists lists entries i0,
    i.(i_class) = fst (inputFactory lists i.(property)) /\
    i.(required) = is_required i.(property) /\
    factory_editor lists i.(property) entries = inr i0 /\ steps i0 i.
Proof.
  intros (lists & p & es & i0 & F & R). exists lists, es, i0.
  destruct (steps_fields _ _ R) as (Hc & Hp & Hr).
  unfold factory_editor in *.
  destruct (construct_fields _ _ _ _ F) as (Hc' & Hp' & Hr').
  rewrite Hp, Hp'. split; [congruence|split; [congruence|split; [exact F|exact R]]].
Qed.

Lemma resolve_spec_fallback_not_list (p : ShaclPropertySpec) :
  resolve_spec (fallback_rules p) <> InputList.
Proof.
  unfold resolve_spec, fallback_rules. cbn [first_match].
  repeat case_match; congruence.
Qed.

(** C7: when [shaclIn] names a list that is missing or empty, [inputFactory]
    writes one diagnostic naming the id, continues with rules 2 to 4, and
    does not build a List editor. *)
Theorem inputFactory_missing_list (lists : lists_map) (p : ShaclPropertySpec) (id : string) :
  p.(shaclIn) = Some id -> id <> "" ->
  lists !! id = None \/ lists !! id = Some [] ->
  inputFactory lists p = (resolve_spec (fallback_rules p), [ListNotFound id]) /\
  fst (inputFactory lists p) <> InputList.
Proof.
  intros Hs Hid Hl.
  assert (E : list_step lists p = inr [ListNotFound id]).
  { unfold list_step. rewrite Hs.
    assert (str_truthy id = true) as ->.
    { unfold str_truthy. apply negb_true_iff, String.eqb_neq. exact Hid. }
    destruct Hl as [-> | ->]; reflexivity. }
  rewrite (inputFactory_fallback lists p _ E). split; [reflexivity|].
  apply resolve_spec_fallback_not_list.
Qed.

(** C4: a Boolean editor emits "true" when ticked, "false" when unticked and
    required ([minCount > 0]), and nothing when unticked and not
    required. *)
Theorem boolean_toRDFObject (i : input) :
  reachable i -> i.(i_class) = InputBoolean ->
  (i.(editor).(w_checked) = true ->
     toRDFObject i = Some (literal "true" (DatatypeArg i.(property).(datatype)))) /\
  (i.(editor).(w_checked) = false -> is_required i.(property) = true ->
     toRDFObject i = Some (literal "false" (DatatypeArg i.(property).(datatype)))) /\
  (i.(editor).(w_checked) = false -> is_required i.(property) = false ->
     toRDFObject i = None).
Proof.
  intros R Hk. destruct (reachable_fields i R) as (lists & es & i0 & _ & Hr & _).
  unfold toRDFObject. rewrite Hk, Hr.
  split; [|split]; intros Hc; rewrite Hc; [reflexivity|intros Hq; rewrite Hq; reflexivity..].
Qed.

(** C10: [InputBoolean.setValue] ticks the box exactly when the literal's
    lexical value is "true", and leaves the editor unchanged for a named
    node. *)
Theorem boolean_setValue (i : input) :
  i.(i_class) = InputBoolean ->
  (forall v l d,
     setValue i (Literal v l d) = inr (with_editor i (with_checked i.(editor) (String.eqb v "true"))) /\
     ((String.eqb v "true" = true) <-> v = "true")) /\
  (forall iri, setValue i (NamedNode iri) = inr i).
Proof.
  intros Hk. unfold setValue. rewrite Hk. split.
  - intros v l d. split; [reflexivity|]. apply String.eqb_eq.
  - reflexivity.
Qed.

(** C3 (the code): for PropertySpec{datatype=xsd:integer, minInclusive=0,
    maxExclusive=10} the Number editor gets max 9 and the default step 1,
    but no min: [minInclusive = 0] is falsy, and so is a derived min of 0. *)
Theorem number_zero_min_dropped :
  fst (inputFactory ∅ integer_range_property) = InputNumber /\
  (InputNumber_new integer_range_property).(editor).(w_cons).(c_min) = None /\
  (InputNumber_new integer_range_property).(editor).(w_cons).(c_max) = Some 9%Q /\
  (InputNumber_new integer_range_property).(editor).(w_cons).(c_step) = None.
Proof. vm_compute. repeat split. Qed.

(** C8 (the code): [sh:maxLength 0] is not applied (0 is falsy), and on a
    multi-line editor the pattern is not applied (a textarea has no
    [pattern]). *)
Theorem text_constraints_dropped :
  fst (inputFactory ∅ empty_text_property) = InputText /\
  (exists e, InputText_new empty_text_property = inr e /\
     e.(editor).(w_cons).(c_maxLength) = None) /\
  fst (inputFactory ∅ multiline_pattern_property) = InputText /\
  (exists e, InputText_new multiline_pattern_property = inr e /\
     e.(editor).(w_control) = CTextArea /\ e.(editor).(w_cons).(c_pattern) = None).
Proof.
  split; [vm_compute; reflexivity|].
  split; [eexists; split; [reflexivity|vm_compute; reflexivity]|].
  split; [vm_compute; reflexivity|].
  eexists; split; [reflexivity|vm_compute; split; reflexivity].
Qed.


Lemma setListEntries_spec (w : widget) (es : list InputListEntry) :
  w.(w_options) = [] -> w.(w_selected) = None ->
  (setListEntries w es).(w_options) = ("", "") :: map entry_option es /\
  (setListEntries w es).(w_selected) = Some 0%nat /\
  (setListEntries w es).(w_control) = w.(w_control).
Proof.
  intros Ho Hs. unfold setListEntries.
  set (f := fun w item => add_option w (entry_option item).1 (entry_option item).2).
  assert (G : forall w' acc, w'.(w_options) = acc -> w'.(w_selected) = Some 0%nat ->
    (fold_left f es w').(w_options) = (acc ++ map entry_option es)%list /\
    (fold_left f es w').(w_selected) = Some 0%nat /\
    (fold_left f es w').(w_control) = w'.(w_control)).
  { induction es as [|x es IH]; intros w' acc Ho' Hs'; cbn.
    - rewrite app_nil_r. auto.
    - destruct (IH (f w' x) (acc ++ [entry_option x])%list) as (H1 & H2 & H3).
      + subst f. unfold add_option. cbn. rewrite Ho'. reflexivity.
      + subst f. unfold add_option. cbn. rewrite Hs'. reflexivity.
      + rewrite H1, <- app_assoc. split; [reflexivity|]. split; [exact H2|].
        rewrite H3. reflexivity. }
  destruct (G (add_option w "" "") [("", "")]) as (H1 & H2 & H3).
  - unfold add_option. cbn. rewrite Ho. reflexivity.
  - unfold add_option. cbn. rewrite Hs. reflexivity.
  - split; [exact H1|]. split; [exact H2|]. rewrite H3. reflexivity.
Qed.

Lemma InputList_new_editor (p : ShaclPropertySpec) (es : list InputListEntry) :
  (InputList_new p (Some es)).(editor).(w_control) = CSelect /\
  (InputList_new p (Some es)).(editor).(w_options) = ("", "") :: map entry_option es /\
  (InputList_new p (Some es)).(i_class) = InputList /\
  (InputList_new p (Some es)).(property) = p.
Proof.
  unfold InputList_new.
  set (w := editor (InputBase_new InputList p)).
  assert (Ew : w.(w_control) = CSelect /\ w.(w_options) = [] /\ w.(w_selected) = None).
  { subst w. unfold InputBase_new. cbn.
    destruct (str_truthy (placeholder_of p)), (is_required p); cbn; auto. }
  destruct Ew as (Ec & Eo & Es).
  destruct (setListEntries_spec w es Eo Es) as (H1 & _ & H3).
  cbv beta iota. unfold with_editor. cbn [editor i_class property].
  fold w. rewrite H1, H3, Ec. repeat split.
Qed.

(** C6: a Text or List editor emits nothing exactly when the control's
    value is the empty string, and otherwise a named node when [class] is
    set or the node kind is sh:IRI, else a literal with the datatype.
    Choosing option [0] of a List editor (the injected empty choice) emits
    nothing; choosing entry [j] emits that entry's lexical value, as a named
    node or a literal by the same rule, and nothing when that value is
    empty. *)
Theorem text_list_toRDFObject :
  (forall i : input,
     i.(i_class) = InputText \/ i.(i_class) = InputList ->
     (toRDFObject i = None <-> get_value i.(editor) = "") /\
     (get_value i.(editor) <> "" ->
        toRDFObject i =
        Some (if is_iri i.(property) then NamedNode (get_value i.(editor))
              else literal (get_value i.(editor)) (DatatypeArg i.(property).(datatype))))) /\
  (forall (p : ShaclPropertySpec) (es : list InputListEntry) (j : nat) (x : InputListEntry),
     let e := InputList_new p (Some es) in
     toRDFObject (with_editor e (select_index e.(editor) 0)) = None /\
     (es !! j = Some x ->
        toRDFObject (with_editor e (select_index e.(editor) (S j))) =
        if String.eqb (term_value x.(le_value)) "" then None
        else Some (if is_iri p then NamedNode (term_value x.(le_value))
                   else literal (term_value x.(le_value)) (DatatypeArg p.(datatype))))).
Proof.
  split.
  - intros i Hk.
    assert (E : toRDFObject i =
      if str_truthy (get_value i.(editor)) then Some (iri_or_literal i.(property) (get_value i.(editor)))
      else None).
    { unfold toRDFObject. destruct Hk as [-> | ->]; reflexivity. }
    rewrite E. unfold str_truthy, iri_or_literal.
    destruct (String.eqb_spec (get_value (editor i)) ""); cbn.
    + split; [split; auto|]. intros Hne. contradiction.
    + split; [split; intros H; [discriminate|contradiction]|]. auto.
  - intros p es j x e. destruct (InputList_new_editor p es) as (Hc & Ho & Hk & Hp).
    fold e in Hc, Ho, Hk, Hp.
    assert (Ev : forall n, get_value (select_index e.(editor) n) =
      match (("", "") :: map entry_option es) !! n with Some (v, _) => v | None => "" end).
    { intros n. unfold get_value, select_index, with_selection.
      cbn [w_control w_options w_selected]. rewrite Hc, Ho. reflexivity. }
    assert (Et : forall w, toRDFObject (with_editor e w) =
      if str_truthy (get_value w) then Some (iri_or_literal p (get_value w)) else None).
    { intros w. unfold toRDFObject, with_editor. cbn [i_class property editor].
      rewrite Hk, Hp. reflexivity. }
    rewrite !Et, !Ev. split; [reflexivity|].
    intros Hx. change (map entry_option es) with (entry_option <$> es).
    change ((("", "") :: (entry_option <$> es)) !! S j) with ((entry_option <$> es) !! j).
    rewrite list_lookup_fmap, Hx. cbn.
    unfold str_truthy, iri_or_literal.
    destruct (String.eqb (term_value (le_value x)) ""); reflexivity.
Qed.

(** *** Value sanitization and the editors as constructed *)

Lemma set_value_shape w v :
  (set_value w v).(w_control) = w.(w_control) /\ (set_value w v).(w_options) = w.(w_options).
Proof. unfold set_value. case_match; split; cbn; congruence. Qed.

Lemma setValue_shape (i i' : input) (t : term) :
  setValue i t = inr i' -> input_shape i' = input_shape i.
Proof.
  unfold setValue, base_setValue. intros H.
  destruct (i_class i).
  - injection H as <-. unfold input_shape, with_editor; cbn [editor langChooser]. rewrite (proj1 (set_value_shape _ _)), (proj2 (set_value_shape _ _)). reflexivity.
  - cbn in H. destruct t as [iri|v l d]; [injection H as <-|].
    + unfold input_shape, with_editor; cbn [editor langChooser]. rewrite (proj1 (set_value_shape _ _)), (proj2 (set_value_shape _ _)). reflexivity.
    + destruct (langChooser i) as [ch|] eqn:Hl; injection H as <-;
        unfold input_shape, with_editor, with_langChooser; cbn [editor langChooser option_map];
        rewrite ?Hl; cbn [option_map];
        rewrite !(proj1 (set_value_shape _ _)), !(proj2 (set_value_shape _ _)); reflexivity.
  - injection H as <-. unfold input_shape, with_editor; cbn [editor langChooser]. rewrite (proj1 (set_value_shape _ _)), (proj2 (set_value_shape _ _)). reflexivity.
  - destruct (date_toISOString (term_value t)) as [e|iso]; [discriminate|].
    injection H as <-. unfold input_shape, with_editor; cbn [editor langChooser].
    rewrite (proj1 (set_value_shape _ _)), (proj2 (set_value_shape _ _)). reflexivity.
  - destruct t; injection H as <-; reflexivity.
  - injection H as <-. unfold input_shape, with_editor; cbn [editor langChooser]. rewrite (proj1 (set_value_shape _ _)), (proj2 (set_value_shape _ _)). reflexivity.
Qed.

Lemma step_shape (i i' : input) : step i i' -> input_shape i' = input_shape i.
Proof.
  destruct 1 as [i t i' H| | | | i ch v Hl _ | i ch n Hl _ _];
    [exact (setValue_shape _ _ _ H)|reflexivity..| |];
    unfold input_shape; cbn; rewrite Hl; reflexivity.
Qed.

Lemma steps_shape (i i' : input) : steps i i' -> input_shape i' = input_shape i.
Proof.
  induction 1 as [|a b c Hab _ IH]; [reflexivity|].
  rewrite IH. exact (step_shape _ _ Hab).
Qed.

Lemma set_value_attribute_fields (w : widget) (v : string) :
  (set_value_attribute w v).(w_control) = w.(w_control) /\
  (set_value_attribute w v).(w_options) = w.(w_options) /\
  (set_value_attribute w v).(w_selected) = w.(w_selected).
Proof. unfold set_value_attribute. destruct (w_control w) eqn:E; cbn; auto. Qed.

Lemma createEditor_fresh (k : EditorKind) (p : ShaclPropertySpec) :
  (createEditor k p).(w_options) = [] /\ (createEditor k p).(w_selected) = None /\
  (createEditor k p).(w_value) = "".
Proof. destruct k; cbn; try case_bool_decide; cbn; auto. Qed.

Lemma InputBase_new_editor (k : EditorKind) (p : ShaclPropertySpec) :
  (InputBase_new k p).(editor).(w_control) = (createEditor k p).(w_control) /\
  (InputBase_new k p).(editor).(w_value) =
    (set_value_attribute (createEditor k p) (default_value_str p)).(w_value) /\
  (InputBase_new k p).(editor).(w_options) = [] /\
  (InputBase_new k p).(editor).(w_selected) = None /\
  (InputBase_new k p).(langChooser) = None.
Proof.
  destruct (set_value_attribute_fields (createEditor k p) (default_value_str p)) as (F1 & F2 & F3).
  destruct (createEditor_fresh k p) as (G1 & G2 & _).
  unfold InputBase_new. cbn [editor langChooser].
  destruct (str_truthy (placeholder_of p)), (is_required p);
    cbn [with_cons with_path w_control w_value w_options w_selected];
    rewrite ?F1, ?F2, ?F3, ?G1, ?G2; repeat split.
Qed.

Lemma fold_add_option_fields {A} (f : A -> string * string) (l : list A) (w : widget) :
  (fold_left (fun w x => add_option w (f x).1 (f x).2) l w).(w_control) = w.(w_control) /\
  (fold_left (fun w x => add_option w (f x).1 (f x).2) l w).(w_value) = w.(w_value).
Proof.
  revert w. induction l as [|x l IH]; intros w; [split; reflexivity|].
  cbn [fold_left]. destruct (IH (add_option w (f x).1 (f x).2)) as [H1 H2].
  rewrite H1, H2. split; reflexivity.
Qed.

Lemma fold_add_option_options (langs : list string) (w : widget) :
  (fold_left (fun w lang => add_option w lang lang) langs w).(w_control) = w.(w_control) /\
  (fold_left (fun w lang => add_option w lang lang) langs w).(w_options) =
    (w.(w_options) ++ map (fun l => (l, l)) langs)%list.
Proof.
  revert w. induction langs as [|l langs IH]; intros w; cbn.
  - rewrite app_nil_r. auto.
  - destruct (IH (add_option w l l)) as [H1 H2]. rewrite H1, H2.
    cbn. rewrite <- app_assoc. auto.
Qed.

(** The language chooser: a text input when [languageIn] is empty, else a
    select whose options are the listed tags. *)
Lemma createLangChooser_shape (p : ShaclPropertySpec) :
  (p.(languageIn) = [] -> (createLangChooser p).(w_control) = CInput "text") /\
  (p.(languageIn) <> [] ->
     (createLangChooser p).(w_control) = CSelect /\
     (createLangChooser p).(w_options) = map (fun l => (l, l)) p.(languageIn)).
Proof.
  unfold createLangChooser. destruct (languageIn p) as [|l ls] eqn:E.
  - split; [reflexivity|]. intros H. contradiction.
  - split; [discriminate|]. intros _.
    destruct (fold_add_option_options (l :: ls) (new_widget CSelect)) as [H1 H2].
    rewrite H1, H2. split; reflexivity.
Qed.

(** An editor as constructed: the control its class creates, holding the
    default value as [setAttribute('value', ...)] leaves it, and the
    language chooser of a LangString editor. *)
Lemma construct_core (k : EditorKind) (p : ShaclPropertySpec) es e :
  construct k p es = inr e ->
  e.(editor).(w_control) = (createEditor k p).(w_control) /\
  e.(editor).(w_value) = (set_value_attribute (createEditor k p) (default_value_str p)).(w_value) /\
  e.(langChooser) = match k with InputLangString => Some (createLangChooser p) | _ => None end.
Proof.
  destruct (InputBase_new_editor k p) as (B1 & B2 & _ & _ & B5).
  destruct k; cbn [construct]; intros H.
  - apply InputText_init_spec in H as (w & -> & W1 & W2 & _).
    cbn [with_editor editor langChooser]. rewrite W1, W2, B1, B2, B5. auto.
  - unfold InputLangString_new in H. destruct (InputText_init _) as [|i0] eqn:E; [discriminate|].
    injection H as <-. apply InputText_init_spec in E as (w & -> & W1 & W2 & _).
    cbn [with_langChooser with_editor editor langChooser]. rewrite W1, W2, B1, B2. auto.
  - injection H as <-. unfold InputNumber_new.
    repeat case_match; cbn [with_editor with_cons editor langChooser w_control w_value];
      rewrite ?B1, ?B2, ?B5; auto.
  - injection H as <-. unfold InputDate_new. auto.
  - injection H as <-. unfold InputBoolean_new.
    cbn [with_editor with_cons editor langChooser w_control w_value]. rewrite B1, B2, B5. auto.
  - injection H as <-. unfold InputList_new. destruct es as [es|]; [|auto].
    cbn [with_editor editor langChooser]. unfold setListEntries.
    destruct (fold_add_option_fields entry_option es (add_option (editor (InputBase_new InputList p)) "" ""))
      as [H1 H2].
    rewrite H1, H2. cbn [add_option with_selection w_control w_value]. rewrite B1, B2, B5. auto.
Qed.

Lemma construct_control k p es e :
  construct k p es = inr e -> e.(editor).(w_control) = (createEditor k p).(w_control).
Proof. intros H. exact (proj1 (construct_core k p es e H)). Qed.

Lemma strip_newlines_idem (s : string) : strip_newlines (strip_newlines s) = strip_newlines s.
Proof.
  induction s as [|c s IH]; [reflexivity|]. cbn.
  destruct (Ascii.eqb c "010" || Ascii.eqb c "013") eqn:E; [exact IH|].
  cbn. rewrite E, IH. reflexivity.
Qed.

Lemma sanitize_idem (c : control) (v : string) :
  c <> CInput "datetime-local" -> sanitize c (sanitize c v) = sanitize c v.
Proof.
  intros Hc. destruct c as [ty| |]; [|reflexivity|reflexivity]. cbn [sanitize].
  destruct (String.eqb ty "text"); [apply strip_newlines_idem|].
  destruct (String.eqb ty "number").
  { destruct (valid_float v) eqn:E; [rewrite E|]; reflexivity. }
  destruct (String.eqb ty "date").
  { destruct (valid_date_string v) eqn:E; [rewrite E|]; reflexivity. }
  destruct (String.eqb_spec ty "datetime-local"); [subst; contradiction|reflexivity].
Qed.

Lemma value_sanitized_congr (w w' : widget) :
  w'.(w_control) = w.(w_control) -> w'.(w_value) = w.(w_value) ->
  value_sanitized w' = value_sanitized w.
Proof. intros H1 H2. unfold value_sanitized, control_type_is. rewrite H1, H2. reflexivity. Qed.

Lemma value_sanitized_sanitize (w : widget) (v : string) :
  value_sanitized (with_value w (sanitize w.(w_control) v)) = true.
Proof.
  unfold value_sanitized, control_type_is. cbn [with_value w_control w_value].
  destruct (w_control w) as [ty| |].
  - destruct (String.eqb_spec ty "datetime-local") as [->|Hne]; [reflexivity|].
    cbn [orb]. apply String.eqb_eq, sanitize_idem. congruence.
  - cbn. apply String.eqb_refl.
  - cbn. apply String.eqb_refl.
Qed.

Lemma value_sanitized_non_input (w : widget) :
  w.(w_control) = CTextArea \/ w.(w_control) = CSelect -> value_sanitized w = true.
Proof.
  intros H. unfold value_sanitized, control_type_is.
  destruct H as [H|H]; rewrite H; cbn; apply String.eqb_refl.
Qed.

Lemma set_value_sanitized (w : widget) (v : string) :
  value_sanitized w = true -> value_sanitized (set_value w v) = true.
Proof.
  intros H. unfold set_value. destruct (w_control w) eqn:E.
  - rewrite <- E. apply value_sanitized_sanitize.
  - rewrite <- E. apply value_sanitized_sanitize.
  - rewrite (value_sanitized_congr w (with_selection w (w_options w) (find_option (w_options w) v)));
      [exact H|reflexivity|reflexivity].
Qed.

Lemma user_input_sanitized (w : widget) (v : string) : value_sanitized (user_input w v) = true.
Proof. apply value_sanitized_sanitize. Qed.

Lemma createLangChooser_sanitized (p : ShaclPropertySpec) :
  value_sanitized (createLangChooser p) = true.
Proof.
  destruct (languageIn p) eqn:E.
  - unfold createLangChooser. rewrite E. reflexivity.
  - apply value_sanitized_non_input. right.
    apply (proj2 (createLangChooser_shape p)). rewrite E. discriminate.
Qed.

Lemma construct_sanitized k p es e : construct k p es = inr e -> input_sanitized e = true.
Proof.
  intros H. destruct (construct_core k p es e H) as (C1 & C2 & C3).
  destruct (set_value_attribute_fields (createEditor k p) (default_value_str p)) as (F1 & _ & _).
  unfold input_sanitized. apply andb_true_iff. split.
  - rewrite (value_sanitized_congr (set_value_attribute (createEditor k p) (default_value_str p)) (editor e));
      [|rewrite C1, F1; reflexivity|exact C2].
    unfold set_value_attribute. destruct (w_control (createEditor k p)) eqn:E.
    + rewrite <- E. apply value_sanitized_sanitize.
    + apply value_sanitized_non_input. left. exact E.
    + apply value_sanitized_non_input. right. exact E.
  - rewrite C3. destruct k; try reflexivity. apply createLangChooser_sanitized.
Qed.

Lemma setValue_sanitized (i i' : input) (t : term) :
  setValue i t = inr i' -> input_sanitized i = true -> input_sanitized i' = true.
Proof.
  unfold setValue, base_setValue, input_sanitized. intros H S.
  apply andb_true_iff in S as [S1 S2].
  destruct (i_class i).
  - injection H as <-. cbn [with_editor editor langChooser].
    rewrite (set_value_sanitized _ _ S1). exact S2.
  - cbn in H. destruct t as [iri|v l d]; [injection H as <-|].
    + cbn [with_editor editor langChooser]. rewrite (set_value_sanitized _ _ S1). exact S2.
    + destruct (langChooser i) as [ch|] eqn:Hl; injection H as <-;
        cbn [with_editor with_langChooser editor langChooser];
        rewrite (set_value_sanitized _ _ S1); try rewrite Hl in S2; try rewrite Hl;
        [exact (set_value_sanitized _ _ S2)|reflexivity].
  - injection H as <-. cbn [with_editor editor langChooser].
    rewrite (set_value_sanitized _ _ S1). exact S2.
  - destruct (date_toISOString (term_value t)) as [e|iso]; [discriminate|].
    injection H as <-. cbn [with_editor editor langChooser].
    rewrite (set_value_sanitized _ _ S1). exact S2.
  - destruct t as [|v l d]; injection H as <-; cbn [with_editor editor langChooser].
    + rewrite S1. exact S2.
    + rewrite (value_sanitized_congr (editor i) (with_checked (editor i) (String.eqb v "true")))
        by reflexivity. rewrite S1. exact S2.
  - injection H as <-. cbn [with_editor editor langChooser].
    rewrite (set_value_sanitized _ _ S1). exact S2.
Qed.

Lemma step_sanitized (i i' : input) : step i i' -> input_sanitized i = true -> input_sanitized i' = true.
Proof.
  destruct 1 as [i t i' H|i v _|i b _|i n _ _|i ch v Hl _|i ch n Hl _ _]; intros S.
  - exact (setValue_sanitized _ _ _ H S).
  - unfold input_sanitized in *. apply andb_true_iff in S as [S1 S2].
    cbn [with_editor editor langChooser]. rewrite user_input_sanitized. exact S2.
  - unfold input_sanitized in *. apply andb_true_iff in S as [S1 S2].
    cbn [with_editor editor langChooser].
    rewrite (value_sanitized_congr (editor i) (user_check (editor i) b)) by reflexivity.
    rewrite S1. exact S2.
  - unfold input_sanitized in *. apply andb_true_iff in S as [S1 S2].
    cbn [with_editor editor langChooser].
    rewrite (value_sanitized_congr (editor i) (select_index (editor i) n)) by reflexivity.
    rewrite S1. exact S2.
  - unfold input_sanitized in *. apply andb_true_iff in S as [S1 _].
    cbn [with_langChooser editor langChooser]. rewrite S1, user_input_sanitized. reflexivity.
  - unfold input_sanitized in *. apply andb_true_iff in S as [S1 S2]. rewrite Hl in S2.
    cbn [with_langChooser editor langChooser]. rewrite S1.
    rewrite (value_sanitized_congr ch (select_index ch n)) by reflexivity. exact S2.
Qed.

Lemma steps_sanitized (i i' : input) :
  steps i i' -> input_sanitized i = true -> input_sanitized i' = true.
Proof.
  induction 1 as [|a b c Hab _ IH]; [auto|]. intros S. apply IH. exact (step_sanitized _ _ Hab S).
Qed.

(** Every editor built by [inputFactory], at any point of its run, holds
    values that the sanitization of its controls leaves as they are. *)
Lemma reachable_sanitized (i : input) : reachable i -> input_sanitized i = true.
Proof.
  intros (lists & p & es & i0 & F & R). apply (steps_sanitized _ _ R).
  exact (construct_sanitized _ _ _ _ F).
Qed.

(** An editor built by [inputFactory] keeps the control its class creates. *)
Lemma reachable_control (i : input) :
  reachable i -> i.(editor).(w_control) = (createEditor i.(i_class) i.(property)).(w_control).
Proof.
  intros R. destruct (reachable_fields i R) as (lists & es & i0 & Hc & _ & F & S).
  pose proof (steps_shape _ _ S) as Sh. unfold input_shape in Sh.
  injection Sh as Hctl _ _. rewrite Hctl. unfold factory_editor in F.
  rewrite (construct_control _ _ _ _ F), <- Hc. reflexivity.
Qed.

(** A Date editor built by [inputFactory] keeps a datetime-local control
    for xsd:dateTime and a date control otherwise. *)
Lemma reachable_date_control (i : input) :
  reachable i -> i.(i_class) = InputDate ->
  i.(editor).(w_control) =
  if bool_decide (i.(property).(datatype) = Some XSD_dateTime)
  then CInput "datetime-local" else CInput "date".
Proof.
  intros R Hk. rewrite (reachable_control i R), Hk. cbn. case_bool_decide; reflexivity.
Qed.

(** A Number editor built by [inputFactory] holds "" or a valid
    floating-point number. *)
Lemma reachable_number_value (i : input) :
  reachable i -> i.(i_class) = InputNumber ->
  i.(editor).(w_control) = CInput "number" /\
  (get_value i.(editor) = "" \/ valid_float (get_value i.(editor)) = true).
Proof.
  intros R Hk. pose proof (reachable_control i R) as Hc. rewrite Hk in Hc. cbn in Hc.
  split; [exact Hc|].
  pose proof (reachable_sanitized i R) as S. unfold input_sanitized in S.
  apply andb_true_iff in S as [S _]. unfold value_sanitized, control_type_is in S.
  rewrite Hc in S. change (String.eqb "number" "datetime-local") with false in S.
  change (sanitize (CInput "number") (w_value (editor i))) with
    (if valid_float (w_value (editor i)) then w_value (editor i) else "") in S.
  cbn [orb] in S. apply String.eqb_eq in S.
  unfold get_value. rewrite Hc.
  destruct (valid_float (w_value (editor i))) eqn:E; [right; reflexivity|].
  left. symmetry. exact S.
Qed.

Lemma drop_0 (s : string) : drop 0 s = s.
Proof.
  unfold drop. rewrite Nat.sub_0_r.
  induction s as [|c s IH]; [reflexivity|]. cbn. rewrite IH. reflexivity.
Qed.

Lemma float_integer_scan (s : string) :
  float_integer false s = true -> scan_unsigned s <> None.
Proof.
  destruct s as [|c r]; [discriminate|]. intros H.
  unfold scan_unsigned. destruct (String.prefix "Infinity" (String c r)); [discriminate|].
  cbn [float_integer] in H.
  destruct (is_digit c) eqn:Hd.
  - cbn [count_digits]. rewrite Hd.
    destruct (drop (S (count_digits r)) (String c r)) as [|c' s2]; [discriminate|].
    destruct c' as [[] [] [] [] [] [] [] []]; cbn; discriminate.
  - destruct (Ascii.eqb_spec c ".") as [->|Hne].
    + destruct r as [|c2 r2]; [discriminate|]. cbn [float_fraction] in H.
      destruct (is_digit c2) eqn:H2; [|destruct (is_exp_marker c2); discriminate].
      cbn [count_digits]. replace (if is_digit "." then _ else 0%nat) with 0%nat by reflexivity.
      rewrite drop_0. cbn [count_digits]. rewrite H2. cbn. discriminate.
    + destruct (is_exp_marker c); discriminate.
Qed.

(** [parseFloat] of a valid floating-point number is never NaN. *)
Lemma valid_float_not_NaN (v : string) : valid_float v = true -> parseFloat v <> JSNaN.
Proof.
  intros H. destruct v as [|c r]; [discriminate|].
  assert (Ht : trim_start (String c r) = String c r).
  { cbn. destruct (is_js_space c) eqn:Hs; [|reflexivity]. exfalso.
    destruct c as [[] [] [] [] [] [] [] []]; vm_compute in Hs; try discriminate Hs;
      vm_compute in H; discriminate H. }
  assert (Hs : scan_decimal (String c r) <> None).
  { unfold scan_decimal. unfold valid_float in H.
    destruct (Ascii.eqb_spec c "-") as [->|Hm].
    - cbn. destruct (scan_unsigned r) eqn:E; [discriminate|]. exfalso. exact (float_integer_scan r H E).
    - destruct (Ascii.eqb_spec c "+") as [->|Hp]; [vm_compute in H; discriminate H|].
      cbn [orb]. exact (float_integer_scan _ H). }
  unfold parseFloat. rewrite Ht.
  destruct (scan_decimal (String c r)) as [n|]; [|contradiction]. cbv zeta.
  repeat case_match; discriminate.
Qed.


(** A Number editor built by [inputFactory] has a datatype other than ""
    and xsd:string. *)
Lemma inputFactory_number_datatype (lists : lists_map) (p : ShaclPropertySpec) :
  fst (inputFactory lists p) = InputNumber ->
  exists d, p.(datatype) = Some d /\ d <> "" /\ d <> XSD_string.
Proof.
  unfold inputFactory.
  destruct (list_step lists p); [discriminate|].
  destruct (is_langstring p); [discriminate|].
  destruct (datatype_switch (datatype p)) as [k|] eqn:Ed; cbn; [|discriminate].
  intros ->. unfold datatype_switch in Ed.
  destruct (datatype p) as [d|]; [|discriminate].
  exists d. split; [reflexivity|].
  split; intros ->; vm_compute in Ed; discriminate.
Qed.

(** C9: the control of a Number editor holds "" or a valid floating-point
    number, since the number input blanks anything else. [toRDFObject] never
    throws; it is absent exactly when that value is empty, and otherwise
    returns the literal [String(parseFloat(v))] typed with the property's
    datatype, which is never "NaN". *)
Theorem number_toRDFObject_total (i : input) :
  reachable i -> i.(i_class) = InputNumber ->
  exists d, i.(property).(datatype) = Some d /\
  (get_value i.(editor) = "" \/ valid_float (get_value i.(editor)) = true) /\
  (toRDFObject i = None <-> get_value i.(editor) = "") /\
  forall v, get_value i.(editor) = v -> v <> "" ->
    toRDFObject i = Some (Literal (number_to_string (parseFloat v)) "" d) /\
    parseFloat v <> JSNaN.
Proof.
  intros R Hk. destruct (reachable_fields i R) as (lists & es & i0 & Hc & _).
  rewrite Hk in Hc. symmetry in Hc.
  destruct (inputFactory_number_datatype lists (property i) Hc) as (d & Hd & Hd1 & Hd2).
  destruct (reachable_number_value i R Hk) as [_ Hval].
  assert (E : forall v, get_value i.(editor) = v -> v <> "" ->
            toRDFObject i = Some (Literal (number_to_string (parseFloat v)) "" d)).
  { intros v Hv Hne. unfold toRDFObject. rewrite Hk, Hv, Hd.
    unfold str_truthy. rewrite (proj2 (String.eqb_neq v "") Hne). cbn.
    unfold literal_number, literal.
    rewrite (proj2 (String.eqb_neq d "") Hd1), (proj2 (String.eqb_neq d XSD_string) Hd2).
    reflexivity. }
  exists d. split; [exact Hd|]. split; [exact Hval|]. split.
  - split.
    + intros Hn. destruct (String.eqb_spec (get_value (editor i)) "") as [He|Hne]; [exact He|].
      rewrite (E _ eq_refl Hne) in Hn. discriminate.
    + intros He. unfold toRDFObject. rewrite Hk, He. reflexivity.
  - intros v Hv Hne. split; [exact (E v Hv Hne)|].
    apply valid_float_not_NaN. destruct Hval as [He|Hf]; [congruence|]. rewrite <- Hv. exact Hf.
Qed.

(** *** The calendar and the ISO format *)

Lemma all_range_spec lo n f :
  all_range lo n f = true -> forall k, (lo <= k < lo + Z.of_nat n)%Z -> f k = true.
Proof.
  revert lo. induction n as [|n IH]; intros lo H k Hk; simpl in *; [lia|].
  apply andb_true_iff in H as [H1 H2].
  destruct (Z.eq_dec k lo) as [->|Hne]; [done|].
  apply (IH (lo + 1)%Z); [done|lia].
Qed.



Lemma is_leap_period (a k : Z) : is_leap (a + 400 * k) = is_leap a.
Proof.
  unfold is_leap.
  replace (a + 400 * k)%Z with (a + (100 * k) * 4)%Z at 1 by ring.
  rewrite Z.mod_add by lia.
  replace (a + 400 * k)%Z with (a + (4 * k) * 100)%Z at 1 by ring.
  rewrite Z.mod_add by lia.
  replace (a + 400 * k)%Z with (a + k * 400)%Z by ring.
  rewrite Z.mod_add by lia. reflexivity.
Qed.


Lemma string_app_assoc (a b c : string) : (a ++ b) ++ c = a ++ (b ++ c).
Proof. induction a as [|x a IH]; [reflexivity|]. exact (f_equal (String x) IH). Qed.

Lemma string_app_nil_r (a : string) : a ++ "" = a.
Proof. induction a as [|x a IH]; [reflexivity|]. exact (f_equal (String x) IH). Qed.

Lemma string_cons_app (c : ascii) (s : string) : String c "" ++ s = String c s.
Proof. reflexivity. Qed.

Lemma string_length_app (a b : string) :
  String.length (a ++ b) = (String.length a + String.length b)%nat.
Proof. induction a as [|x a IH]; [reflexivity|]. exact (f_equal S IH). Qed.

Lemma pad_digits_length n x : String.length (pad_digits n x) = n.
Proof.
  revert x. induction n as [|n IH]; intros x; simpl; [done|].
  rewrite string_length_app, IH. simpl. lia.
Qed.

Lemma slice0_app (a b : string) (k : nat) :
  slice0 (a ++ b) (String.length a + k) = a ++ slice0 b k.
Proof.
  induction a as [|x a IH]; [reflexivity|].
  exact (f_equal (String x) IH).
Qed.

Lemma slice0_zero (b : string) : slice0 b 0 = "".
Proof. by destruct b. Qed.

Lemma digit_char_ok (e : Z) :
  (0 <= e <= 9)%Z -> is_digit (digit_char e) = true /\ digit_val (digit_char e) = e.
Proof.
  intros He.
  assert (e = 0 \/ e = 1 \/ e = 2 \/ e = 3 \/ e = 4 \/ e = 5 \/ e = 6 \/ e = 7 \/ e = 8 \/ e = 9)%Z
    as Hc by lia.
  repeat destruct Hc as [-> | Hc]; [..|subst]; split; reflexivity.
Qed.

Lemma take_digits_pad k j acc x s :
  (0 <= x < 10 ^ Z.of_nat k)%Z ->
  take_digits (k + j) acc (pad_digits k x ++ s) = take_digits j (acc * 10 ^ Z.of_nat k + x)%Z s.
Proof.
  revert j acc x s. induction k as [|k IH]; intros j acc x s Hx.
  - simpl. f_equal. simpl in Hx. lia.
  - cbn [pad_digits]. rewrite string_app_assoc.
    replace (S k + j)%nat with (k + S j)%nat by lia.
    assert (H10 : (10 ^ Z.of_nat (S k) = 10 ^ Z.of_nat k * 10)%Z)
      by (rewrite Nat2Z.inj_succ, Z.pow_succ_r; lia).
    rewrite H10 in Hx.
    assert (Hpos : (0 < 10 ^ Z.of_nat k)%Z) by (apply Z.pow_pos_nonneg; lia).
    rewrite IH.
    2:{ split; [apply Z.div_pos; lia|]. apply Z.div_lt_upper_bound; lia. }
    destruct (digit_char_ok (x mod 10)) as [Hd Hv]; [pose proof (Z.mod_pos_bound x 10); lia|].
    simpl. rewrite Hd, Hv. f_equal. rewrite H10.
    pose proof (Z.div_mod x 10). lia.
Qed.

Lemma take_digits_pad0 k x s :
  (0 <= x < 10 ^ Z.of_nat k)%Z -> take_digits k 0 (pad_digits k x ++ s) = Some (x, s).
Proof.
  intros Hx. rewrite <- (Nat.add_0_r k) at 1. rewrite take_digits_pad by done. reflexivity.
Qed.

Lemma slice0_prefix (a b : string) : slice0 (a ++ b) (String.length a) = a.
Proof.
  rewrite <- (Nat.add_0_r (String.length a)), slice0_app, slice0_zero.
  apply string_app_nil_r.
Qed.

Lemma date_string_length y m d : String.length (date_string y m d) = 10%nat.
Proof. unfold date_string. rewrite !string_length_app, !pad_digits_length. reflexivity. Qed.

Lemma year_string_4 y : (0 <= y <= 9999)%Z -> year_string y = pad_digits 4 y.
Proof.
  intros Hy. unfold year_string.
  rewrite (proj2 (Z.leb_le 0 y)), (proj2 (Z.leb_le y 9999)) by lia. reflexivity.
Qed.











Lemma pad_digits_cons n x s : exists c r, pad_digits (S n) x ++ s = String c r.
Proof.
  revert x s. induction n as [|n IH]; intros x s.
  - exists (digit_char (x mod 10)%Z), s. reflexivity.
  - change (pad_digits (S (S n)) x) with
      (pad_digits (S n) (x / 10)%Z ++ String (digit_char (x mod 10)%Z) EmptyString).
    rewrite string_app_assoc. apply IH.
Qed.

Lemma iso_string_cons t : exists c r, iso_string t = String c r.
Proof.
  unfold iso_string. destruct (civil_from_days (t / msPerDay)%Z) as [[y m] d].
  cbv beta iota zeta. unfold year_string.
  destruct ((0 <=? y)%Z && (y <=? 9999)%Z); [apply pad_digits_cons|].
  destruct (y <? 0)%Z; eexists _, _; reflexivity.
Qed.

Lemma slice0_iso_nonempty t n : slice0 (iso_string t) (S n) <> "".
Proof. destruct (iso_string_cons t) as (c & r & ->). discriminate. Qed.

Lemma doe_civil_check : all_range 0 (Z.to_nat 146097) doe_civil_ok = true.
Proof. vm_compute. reflexivity. Qed.

(** [civil_from_days] gives a month and a day of that month. *)
Lemma civil_from_days_valid (z : Z) :
  let '(y, m, d) := civil_from_days z in
  (1 <= m <= 12)%Z /\ (1 <= d <= days_in_month y m)%Z.
Proof.
  unfold civil_from_days. cbv zeta.
  set (era := ((z + 719468) / 146097)%Z).
  set (doe := (z + 719468 - era * 146097)%Z).
  assert (Hdoe : (0 <= doe < 146097)%Z).
  { subst doe era. rewrite <- Zmod_eq_full by lia. apply Z.mod_pos_bound; lia. }
  pose proof (all_range_spec 0 _ doe_civil_ok doe_civil_check doe ltac:(rewrite Z2Nat.id; lia)) as H.
  unfold doe_civil_ok in H. destruct (civil_of_doe doe) as [[yoe m] d].
  rewrite !andb_true_iff, !Z.leb_le in H. destruct H as [[[H1 H2] H3] H4].
  assert (Hdm : days_in_month (yoe + (if (m <=? 2)%Z then 1 else 0)) m =
                days_in_month (if (m <=? 2)%Z then (yoe + era * 400 + 1)%Z else (yoe + era * 400)%Z) m).
  { unfold days_in_month.
    replace (if (m <=? 2)%Z then (yoe + era * 400 + 1)%Z else (yoe + era * 400)%Z)
      with ((yoe + (if (m <=? 2)%Z then 1 else 0)) + 400 * era)%Z
      by (destruct (m <=? 2)%Z; ring).
    rewrite is_leap_period. reflexivity. }
  split; [lia|]. rewrite <- Hdm. lia.
Qed.

Lemma count_digits_pad k x s : count_digits (pad_digits k x ++ s) = (k + count_digits s)%nat.
Proof.
  revert x s. induction k as [|k IH]; intros x s; [reflexivity|].
  cbn [pad_digits]. rewrite string_app_assoc, IH, string_cons_app. cbn [count_digits].
  destruct (digit_char_ok (x mod 10)) as [Hd _]; [pose proof (Z.mod_pos_bound x 10); lia|].
  rewrite Hd. lia.
Qed.

Lemma parse_html_date_nondigit (c : ascii) (r : string) :
  is_digit c = false -> parse_html_date (String c r) = None.
Proof. intros H. unfold parse_html_date. cbn [count_digits]. rewrite H. reflexivity. Qed.

(** A date string [YYYY-MM-DD] followed by something other than a digit. *)
Lemma parse_html_date_string y m d s :
  (0 <= y <= 9999)%Z -> (1 <= m <= 12)%Z -> (1 <= d <= days_in_month y m)%Z ->
  count_digits s = 0%nat ->
  parse_html_date (date_string y m d ++ s) =
  if (0 <? y)%Z then Some (pad_digits 4 y, y, m, d, s) else None.
Proof.
  intros Hy Hm Hd Hs.
  assert (Hdim : (days_in_month y m <= 31)%Z)
    by (unfold days_in_month; repeat case_match; lia).
  unfold parse_html_date, date_string.
  rewrite !string_app_assoc, !string_cons_app, count_digits_pad.
  match goal with |- context [count_digits (String "-" ?r)] =>
    replace (count_digits (String "-" r)) with 0%nat by reflexivity end.
  replace (4 + 0)%nat with 4%nat by lia. cbn [Nat.ltb Nat.leb].
  rewrite take_digits_pad0 by (simpl; lia).
  rewrite take_digits_pad0 by (simpl; lia).
  rewrite take_digits_pad0 by (simpl; lia).
  rewrite (proj2 (Z.leb_le 1 m)), (proj2 (Z.leb_le m 12)), (proj2 (Z.leb_le 1 d)),
    (proj2 (Z.leb_le d (days_in_month y m))) by lia.
  rewrite !andb_true_r.
  rewrite <- (pad_digits_length 4 y) at 2. rewrite slice0_prefix.
  destruct (0 <? y)%Z; reflexivity.
Qed.

Lemma parse_html_time_seconds hh mi ss :
  (0 <= hh <= 23)%Z -> (0 <= mi <= 59)%Z -> (0 <= ss <= 59)%Z ->
  parse_html_time (pad_digits 2 hh ++ ":" ++ pad_digits 2 mi ++ ":" ++ pad_digits 2 ss) =
  Some (hh, mi, ss, EmptyString, EmptyString).
Proof.
  intros Hh Hmi Hs. unfold parse_html_time. rewrite !string_cons_app.
  rewrite take_digits_pad0 by (simpl; lia).
  rewrite take_digits_pad0 by (simpl; lia).
  rewrite (proj2 (Z.leb_le hh 23)), (proj2 (Z.leb_le mi 59)) by lia. cbn [andb].
  rewrite <- (string_app_nil_r (pad_digits 2 ss)), take_digits_pad0 by (simpl; lia).
  rewrite (proj2 (Z.leb_le ss 59)) by lia. reflexivity.
Qed.

Lemma trim_year_4 y : trim_year (pad_digits 4 y) = pad_digits 4 y.
Proof.
  cbn [pad_digits]. rewrite !string_app_assoc, !string_cons_app. simpl.
  rewrite andb_false_r. reflexivity.
Qed.

(** The ISO string of a time value whose year has four digits. *)
Lemma iso_string_split tv y m d :
  civil_from_days (tv / msPerDay)%Z = (y, m, d) -> (0 <= y <= 9999)%Z ->
  iso_string tv =
  date_string y m d ++ "T" ++ pad_digits 2 ((tv mod msPerDay) / 3600000)%Z ++ ":"
  ++ pad_digits 2 (((tv mod msPerDay) / 60000) mod 60)%Z ++ ":"
  ++ pad_digits 2 (((tv mod msPerDay) / 1000) mod 60)%Z ++ "."
  ++ pad_digits 3 ((tv mod msPerDay) mod 1000)%Z ++ "Z".
Proof.
  intros E Hy. unfold iso_string. rewrite E. cbv beta iota zeta.
  rewrite year_string_4 by exact Hy. unfold date_string. rewrite !string_app_assoc. reflexivity.
Qed.

(** The ISO string of a time value whose year has not four digits starts
    with its sign. *)
Lemma iso_string_signed tv y m d :
  civil_from_days (tv / msPerDay)%Z = (y, m, d) -> ~ (0 <= y <= 9999)%Z ->
  exists c r, iso_string tv = String c r /\ is_digit c = false.
Proof.
  intros E Hy. unfold iso_string. rewrite E. cbv beta iota zeta. unfold year_string.
  destruct ((0 <=? y)%Z && (y <=? 9999)%Z) eqn:Hr.
  { exfalso. apply Hy. apply andb_true_iff in Hr as [H1 H2]. apply Z.leb_le in H1, H2. lia. }
  destruct (y <? 0)%Z; eexists _, _; split; reflexivity.
Qed.

Lemma slice0_cons c r n : slice0 (String c r) (S n) = String c (slice0 r n).
Proof. reflexivity. Qed.

Lemma local_datetime_seconds y m d hh mi ss ms :
  date_string y m d ++ "T" ++ pad_digits 2 hh ++ ":" ++ pad_digits 2 mi ++ ":"
    ++ pad_digits 2 ss ++ "." ++ pad_digits 3 ms ++ "Z" =
  local_datetime_string y m d hh mi (Some (ss, None)) ++ ("." ++ pad_digits 3 ms ++ "Z").
Proof. unfold local_datetime_string. rewrite !string_app_assoc. reflexivity. Qed.

Lemma local_datetime_seconds_length y m d hh mi ss :
  String.length (local_datetime_string y m d hh mi (Some (ss, None))) = 19%nat.
Proof.
  unfold local_datetime_string.
  rewrite !string_length_app, date_string_length, !pad_digits_length. reflexivity.
Qed.

Lemma local_datetime_minutes y m d hh mi ss ms :
  date_string y m d ++ "T" ++ pad_digits 2 hh ++ ":" ++ pad_digits 2 mi ++ ":"
    ++ pad_digits 2 ss ++ "." ++ pad_digits 3 ms ++ "Z" =
  local_datetime_string y m d hh mi None ++ (":" ++ pad_digits 2 ss ++ "." ++ pad_digits 3 ms ++ "Z").
Proof. unfold local_datetime_string. rewrite !string_app_assoc. reflexivity. Qed.

Lemma local_datetime_minutes_length y m d hh mi :
  String.length (local_datetime_string y m d hh mi None) = 16%nat.
Proof.
  unfold local_datetime_string.
  rewrite !string_length_app, date_string_length, !pad_digits_length. reflexivity.
Qed.

(** The value a date or datetime-local input keeps of the truncated ISO
    string of a time value: the date, or the date and time without zero
    seconds, when the year is between 1 and 9999; [""] otherwise. *)
Lemma set_value_iso (w : widget) (dt : bool) (tv : Z) :
  w.(w_control) = (if dt then CInput "datetime-local" else CInput "date") ->
  set_value w (slice0 (iso_string tv) (if dt then 19 else 10)) =
  with_value w
    (let '(y, _, _) := civil_from_days (tv / msPerDay)%Z in
     if (1 <=? y)%Z && (y <=? 9999)%Z
     then slice0 (iso_string tv)
            (if dt then (if (((tv mod msPerDay) / 1000) mod 60 =? 0)%Z then 16 else 19) else 10)
     else "").
Proof.
  intros Hc. unfold set_value. rewrite Hc.
  pose proof (civil_from_days_valid (tv / msPerDay)%Z) as Hv.
  destruct (civil_from_days (tv / msPerDay)%Z) as [[y m] d] eqn:E. destruct Hv as [Hm Hd].
  destruct dt; cbn beta iota; f_equal.
  - change (sanitize (CInput "datetime-local") ?v) with (sanitize_datetime_local v).
    destruct (decide (0 <= y <= 9999)%Z) as [Hy|Hy].
    2:{ destruct (iso_string_signed tv y m d E Hy) as (c & r & -> & Hc').
        rewrite (proj2 (andb_false_iff _ _)) by (destruct (Z.leb_spec 1 y), (Z.leb_spec y 9999); auto; lia).
        unfold sanitize_datetime_local. rewrite slice0_cons, parse_html_date_nondigit by exact Hc'.
        reflexivity. }
    assert (Htod : (0 <= tv mod msPerDay < msPerDay)%Z) by (apply Z.mod_pos_bound; unfold msPerDay; lia).
    set (tod := (tv mod msPerDay)%Z) in *.
    assert (Hh : (0 <= tod / 3600000 <= 23)%Z).
    { unfold msPerDay in Htod. split; [apply Z.div_pos; lia|].
      apply Z.lt_succ_r, Z.div_lt_upper_bound; lia. }
    assert (Hmi : (0 <= (tod / 60000) mod 60 <= 59)%Z)
      by (pose proof (Z.mod_pos_bound (tod / 60000) 60); lia).
    assert (Hs : (0 <= (tod / 1000) mod 60 <= 59)%Z)
      by (pose proof (Z.mod_pos_bound (tod / 1000) 60); lia).
    set (hh := (tod / 3600000)%Z) in *. set (mi := ((tod / 60000) mod 60)%Z) in *.
    set (ss := ((tod / 1000) mod 60)%Z) in *.
    assert (Hsl : slice0 (iso_string tv) 19 = local_datetime_string y m d hh mi (Some (ss, None))).
    { rewrite (iso_string_split tv y m d E Hy). fold tod hh mi ss.
      rewrite local_datetime_seconds, <- (local_datetime_seconds_length y m d hh mi ss) at 1.
      apply slice0_prefix. }
    assert (Hiso : slice0 (iso_string tv) (if (ss =? 0)%Z then 16 else 19) =
                   local_datetime_string y m d hh mi (if (ss =? 0)%Z then None else Some (ss, None))).
    { destruct (ss =? 0)%Z; [|exact Hsl].
      rewrite (iso_string_split tv y m d E Hy). fold tod hh mi ss.
      rewrite local_datetime_minutes, <- (local_datetime_minutes_length y m d hh mi) at 1.
      apply slice0_prefix. }
    rewrite Hsl, Hiso. unfold sanitize_datetime_local. unfold local_datetime_string at 1.
    rewrite (parse_html_date_string y m d) by (auto; reflexivity).
    destruct (Z.ltb_spec 0 y) as [Hy0|Hy0].
    2:{ rewrite (proj2 (andb_false_iff _ _)) by (left; apply Z.leb_gt; lia). reflexivity. }
    rewrite (proj2 (Z.leb_le 1 y)), (proj2 (Z.leb_le y 9999)) by lia. cbn [andb].
    rewrite (string_cons_app "T"). cbn [Ascii.eqb orb Bool.eqb].
    rewrite parse_html_time_seconds by assumption.
    rewrite trim_year_4. unfold normalized_time, local_datetime_string, date_string.
    cbn [strip_trailing_zeros str_truthy String.eqb negb].
    destruct (ss =? 0)%Z; cbn [andb]; rewrite !string_app_assoc; reflexivity.
  - change (sanitize (CInput "date") ?v) with (if valid_date_string v then v else "").
    destruct (decide (0 <= y <= 9999)%Z) as [Hy|Hy].
    2:{ destruct (iso_string_signed tv y m d E Hy) as (c & r & -> & Hc').
        rewrite (proj2 (andb_false_iff _ _)) by (destruct (Z.leb_spec 1 y), (Z.leb_spec y 9999); auto; lia).
        unfold valid_date_string. rewrite slice0_cons, parse_html_date_nondigit by exact Hc'.
        reflexivity. }
    assert (Hsl : slice0 (iso_string tv) 10 = date_string y m d).
    { rewrite (iso_string_split tv y m d E Hy), <- (date_string_length y m d).
      apply slice0_prefix. }
    rewrite Hsl. unfold valid_date_string.
    rewrite <- (string_app_nil_r (date_string y m d)) at 1.
    rewrite (parse_html_date_string y m d) by (auto; reflexivity).
    destruct (Z.ltb_spec 0 y) as [Hy0|Hy0].
    + rewrite (proj2 (Z.leb_le 1 y)), (proj2 (Z.leb_le y 9999)) by lia. reflexivity.
    + rewrite (proj2 (andb_false_iff _ _)) by (left; apply Z.leb_gt; lia). reflexivity.
Qed.

(** *** Invariants of the shape of editors *)

Lemma term_value_literal v ld : term_value (literal v ld) = v.
Proof. destruct ld; cbn; repeat case_match; reflexivity. Qed.

Lemma str_truthy_true (s : string) : s <> "" -> str_truthy s = true.
Proof. intros H. unfold str_truthy. rewrite (proj2 (String.eqb_neq _ _) H). reflexivity. Qed.

Lemma str_truthy_false (s : string) : str_truthy s = false -> s = "".
Proof. unfold str_truthy. destruct (String.eqb_spec s ""); [auto|discriminate]. Qed.

(** [InputDate.setValue] on an editor whose control is the one its class
    creates. *)
Lemma date_setValue_value (i : input) (t : term) :
  i.(i_class) = InputDate ->
  i.(editor).(w_control) =
    (if bool_decide (i.(property).(datatype) = Some XSD_dateTime)
     then CInput "datetime-local" else CInput "date") ->
  match date_parse (term_value t) with
  | Some tv =>
      let '(y, _, _) := civil_from_days (tv / msPerDay)%Z in
      let n := if bool_decide (i.(property).(datatype) = Some XSD_dateTime)
               then (if (((tv mod msPerDay) / 1000) mod 60 =? 0)%Z then 16%nat else 19%nat)
               else 10%nat in
      let v := if (1 <=? y)%Z && (y <=? 9999)%Z then slice0 (iso_string tv) n else "" in
      setValue i t = inr (with_editor i (with_value i.(editor) v)) /\
      toRDFObject (with_editor i (with_value i.(editor) v)) =
        (if (1 <=? y)%Z && (y <=? 9999)%Z
         then Some (literal v (DatatypeArg i.(property).(datatype))) else None)
  | None => setValue i t = inl RangeError
  end.
Proof.
  intros Hk Hc.
  unfold setValue, date_toISOString. rewrite Hk.
  destruct (date_parse (term_value t)) as [tv|]; [|reflexivity].
  set (dt := bool_decide (i.(property).(datatype) = Some XSD_dateTime)) in *.
  assert (Hsl : (if control_type_is i.(editor) "datetime-local"
                 then slice0 (iso_string tv) 19 else slice0 (iso_string tv) 10)
                = slice0 (iso_string tv) (if dt then 19 else 10)).
  { unfold control_type_is. rewrite Hc. destruct dt; reflexivity. }
  rewrite Hsl. unfold base_setValue. rewrite term_value_literal.
  rewrite (set_value_iso (editor i) dt tv Hc).
  destruct (civil_from_days (tv / msPerDay)%Z) as [[y m] d] eqn:E. cbv zeta.
  split; [reflexivity|].
  unfold toRDFObject, with_editor. cbn [i_class property editor]. rewrite Hk.
  set (v := if (1 <=? y)%Z && (y <=? 9999)%Z then _ else "").
  assert (Hg : get_value (with_value (editor i) v) = v).
  { unfold get_value, with_value. cbn [w_control w_value]. rewrite Hc. destruct dt; reflexivity. }
  rewrite Hg. subst v.
  destruct ((1 <=? y)%Z && (y <=? 9999)%Z); [|reflexivity].
  assert (Hne : slice0 (iso_string tv) (if dt then (if (((tv mod msPerDay) / 1000) mod 60 =? 0)%Z
                  then 16%nat else 19%nat) else 10%nat) <> "").
  { destruct dt; [destruct (_ =? 0)%Z|]; apply slice0_iso_nonempty. }
  rewrite (str_truthy_true _ Hne). reflexivity.
Qed.

(** C5 (amended): [InputDate.setValue] parses the lexical value as
    [new Date] does.  On a time value whose year is between 1 and 9999 it
    stores the first 10 characters of its ISO string (the date), or for
    xsd:dateTime the first 19 (whole seconds), which the datetime-local
    input normalizes by dropping seconds that are zero; [toRDFObject] then
    gives that string as a literal with the property's datatype.  Any other
    year is blanked by the input, and [toRDFObject] is absent.  On an
    invalid date [toISOString] throws RangeError. *)
Theorem date_setValue_iso (i : input) (t : term) :
  reachable i -> i.(i_class) = InputDate ->
  match date_parse (term_value t) with
  | Some tv =>
      let '(y, _, _) := civil_from_days (tv / msPerDay)%Z in
      let n := if bool_decide (i.(property).(datatype) = Some XSD_dateTime)
               then (if (((tv mod msPerDay) / 1000) mod 60 =? 0)%Z then 16%nat else 19%nat)
               else 10%nat in
      let v := if (1 <=? y)%Z && (y <=? 9999)%Z then slice0 (iso_string tv) n else "" in
      setValue i t = inr (with_editor i (with_value i.(editor) v)) /\
      toRDFObject (with_editor i (with_value i.(editor) v)) =
        (if (1 <=? y)%Z && (y <=? 9999)%Z
         then Some (literal v (DatatypeArg i.(property).(datatype))) else None)
  | None => setValue i t = inl RangeError
  end.
Proof.
  intros R Hk. exact (date_setValue_value i t Hk (reachable_date_control i R Hk)).
Qed.

(** *** Round trips *)




Lemma find_option_some opts v j :
  find_option opts v = Some j -> exists txt, opts !! j = Some (v, txt).
Proof.
  revert j. induction opts as [|[v' txt'] opts IH]; intros j H; cbn in H; [discriminate|].
  destruct (String.eqb_spec v' v) as [<-|_].
  - injection H as <-. exists txt'. reflexivity.
  - destruct (find_option opts v) as [j'|] eqn:E; [|discriminate].
    injection H as <-. exact (IH j' eq_refl).
Qed.













(** A select's non-empty value is the value of one of its options. *)
Lemma get_value_select w :
  w.(w_control) = CSelect -> get_value w <> "" ->
  exists j txt, w.(w_options) !! j = Some (get_value w, txt).
Proof.
  intros Ec Hne. unfold get_value in *. rewrite Ec in *.
  destruct (w_selected w) as [j|]; [|contradiction].
  destruct (w_options w !! j) as [[v txt]|] eqn:E; [|contradiction].
  eauto.
Qed.

Lemma chooser_option_tag (p : ShaclPropertySpec) j v txt :
  p.(languageIn) <> [] -> (createLangChooser p).(w_options) !! j = Some (v, txt) ->
  In v p.(languageIn).
Proof.
  intros Hne Hj. destruct (proj2 (createLangChooser_shape p) Hne) as [_ Ho].
  rewrite Ho in Hj. apply list_elem_of_lookup_2 in Hj.
  change (map (fun l => (l, l)) p.(languageIn)) with ((fun l => (l, l)) <$> p.(languageIn)) in Hj.
  apply list_elem_of_fmap_1 in Hj as (l & Hl & Hin). injection Hl as -> _.
  apply list_elem_of_In. exact Hin.
Qed.


Lemma createEditor_text_control (k : EditorKind) (p : ShaclPropertySpec) :
  k = InputText \/ k = InputLangString -> (createEditor k p).(w_control) <> CSelect.
Proof. intros [-> | ->]; cbn; case_bool_decide; discriminate. Qed.


Lemma literal_datatype_Literal v d : exists dt, literal v (DatatypeArg d) = Literal v "" dt.
Proof. cbn. case_match; eauto. Qed.




Lemma date_string_nonempty y m d : date_string y m d <> "".
Proof. intros E. pose proof (date_string_length y m d) as H. rewrite E in H. discriminate. Qed.











(* ------------------------------------------------------------------ *)
(** ** The configuration *)

Lemma obj_get_set o k v key :
  obj_get (obj_set o k v) key = if String.eqb k key then v else obj_get o key.
Proof.
  induction o as [|[k' v'] o IH]; cbn.
  - destruct (String.eqb k key); reflexivity.
  - destruct (String.eqb_spec k' k) as [->|Hne]; cbn.
    + destruct (String.eqb k key); reflexivity.
    + rewrite IH. destruct (String.eqb_spec k' key) as [->|]; [|reflexivity].
      destruct (String.eqb_spec k key); [congruence|reflexivity].
Qed.

Lemma obj_keys_set o k v :
  In k (obj_keys o) -> obj_keys (obj_set o k v) = obj_keys o.
Proof.
  unfold obj_keys. induction o as [|[k' v'] o IH]; cbn; [tauto|].
  intros Hin. destruct (String.eqb_spec k' k) as [->|Hne]; cbn; [reflexivity|].
  rewrite IH; [reflexivity|]. destruct Hin; [congruence|assumption].
Qed.

Lemma from_fold_get attrs keys c key :
  obj_get (fold_left (from_step attrs) keys c) key =
    if existsb (String.eqb key) keys
    then match dataset_get attrs key with Some v => JStr v | None => obj_get c key end
    else obj_get c key.
Proof.
  revert c. induction keys as [|k keys IH]; intros c; cbn; [reflexivity|].
  rewrite IH. unfold from_step.
  destruct (String.eqb_spec key k) as [->|Hne]; cbn.
  - destruct (dataset_get attrs k) eqn:Hd; rewrite ?obj_get_set, ?String.eqb_refl;
      destruct (existsb (String.eqb k) keys); reflexivity.
  - destruct (dataset_get attrs k) eqn:Hd; [|reflexivity].
    rewrite obj_get_set. destruct (String.eqb_spec k key); [congruence|reflexivity].
Qed.

Lemma from_fold_keys attrs keys c :
  Forall (fun k => In k (obj_keys c)) keys ->
  obj_keys (fold_left (from_step attrs) keys c) = obj_keys c.
Proof.
  revert c. induction keys as [|k keys IH]; intros c Hk; cbn; [reflexivity|].
  inversion Hk as [|? ? Hk1 Hk2]; subst.
  assert (E : obj_keys (from_step attrs c k) = obj_keys c).
  { unfold from_step. destruct (dataset_get attrs k); [apply obj_keys_set, Hk1|reflexivity]. }
  rewrite IH; [exact E|]. rewrite E. exact Hk2.
Qed.

Lemma Config_from_unfold attrs nl h :
  Config_from attrs nl h =
    (let c := fold_left (from_step attrs) (obj_keys (fst (new_Config h))) (fst (new_Config h)) in
     if js_truthy (obj_get c "language") then c else obj_set c "language" (JStr nl),
     snd (new_Config h)).
Proof. reflexivity. Qed.

Lemma Config_from_get attrs nl h key :
  In key (obj_keys (fst (new_Config h))) ->
  obj_get (fst (Config_from attrs nl h)) key =
    let v := match dataset_get attrs key with
             | Some s => JStr s
             | None => obj_get (fst (new_Config h)) key
             end in
    if String.eqb key "language" && negb (js_truthy v) then JStr nl else v.
Proof.
  intros Hin. rewrite Config_from_unfold. cbn [fst].
  set (c0 := fst (new_Config h)) in *.
  assert (Hl : existsb (String.eqb "language") (obj_keys c0) = true) by reflexivity.
  assert (Hk : existsb (String.eqb key) (obj_keys c0) = true).
  { apply existsb_exists. exists key. split; [exact Hin|apply String.eqb_refl]. }
  set (c := fold_left (from_step attrs) (obj_keys c0) c0).
  assert (Hc : forall k, existsb (String.eqb k) (obj_keys c0) = true ->
     obj_get c k = match dataset_get attrs k with Some s => JStr s | None => obj_get c0 k end).
  { intros k Hek. subst c. rewrite from_fold_get, Hek. reflexivity. }
  cbv zeta.
  destruct (String.eqb_spec key "language") as [->|Hne]; cbn [andb].
  - rewrite (Hc "language" Hl).
    destruct (js_truthy _) eqn:Ht; cbn [negb].
    + rewrite (Hc "language" Hl). reflexivity.
    + rewrite obj_get_set, String.eqb_refl. reflexivity.
  - destruct (js_truthy (obj_get c "language")).
    + apply Hc. exact Hk.
    + rewrite obj_get_set. destruct (String.eqb_spec "language" key); [congruence|].
      apply Hc. exact Hk.
Qed.

Lemma Config_from_keys attrs nl h :
  obj_keys (fst (Config_from attrs nl h)) = obj_keys (fst (new_Config h)).
Proof.
  rewrite Config_from_unfold. cbn [fst].
  assert (E : obj_keys (fold_left (from_step attrs) (obj_keys (fst (new_Config h)))
                                  (fst (new_Config h))) = obj_keys (fst (new_Config h))).
  { apply from_fold_keys. apply Forall_forall. intros k Hk. apply list_elem_of_In in Hk. exact Hk. }
  cbv zeta. destruct (js_truthy _); [exact E|].
  rewrite obj_keys_set; [exact E|]. rewrite E. cbn. tauto.
Qed.

Lemma Config_from_snd attrs nl h : snd (Config_from attrs nl h) = (h + 7)%nat.
Proof. reflexivity. Qed.

Lemma ascii_upper_lower (d : ascii) :
  is_ascii_lower_alpha d = true ->
  is_ascii_upper (ascii_upper d) = true /\ ascii_lower (ascii_upper d) = d.
Proof.
  destruct d as [[] [] [] [] [] [] [] []]; cbv; intros H; try discriminate H; split; reflexivity.
Qed.

Lemma camel_to_kebab_dash (s : string) :
  has_ascii_upper s = false -> camel_to_kebab (dash_to_camel s) = s.
Proof.
  remember (String.length s) as n eqn:En. revert s En.
  induction n as [n IH] using lt_wf_ind. intros s En Hu.
  destruct s as [|c rest]; [reflexivity|].
  cbn in Hu. apply orb_false_iff in Hu as [Hc Hr].
  cbn [dash_to_camel].
  destruct (Ascii.eqb_spec c "-") as [->|Hne].
  - destruct rest as [|d rest'].
    + reflexivity.
    + cbn in Hr. apply orb_false_iff in Hr as [Hd Hr'].
      destruct (is_ascii_lower_alpha d) eqn:Hl.
      * destruct (ascii_upper_lower d Hl) as [Hu1 Hu2].
        cbn [camel_to_kebab]. rewrite Hu1, Hu2.
        rewrite (IH (String.length rest') ltac:(cbn in En; lia) rest' eq_refl Hr'). reflexivity.
      * cbn [camel_to_kebab]. cbn [is_ascii_upper nat_of_ascii]. change (is_ascii_upper "-") with false.
        cbv iota.
        assert (Hdr : has_ascii_upper (String d rest') = false) by (cbn; rewrite Hd; exact Hr').
        rewrite (IH (String.length (String d rest')) ltac:(cbn in En |- *; lia) _ eq_refl Hdr).
        reflexivity.
  - cbn [camel_to_kebab]. rewrite Hc.
    rewrite (IH (String.length rest) ltac:(cbn in En; lia) rest eq_refl Hr). reflexivity.
Qed.

Lemma substring_all (s : string) : String.substring 0 (String.length s) s = s.
Proof. induction s as [|c s IH]; [reflexivity|]. exact (f_equal (String c) IH). Qed.

Lemma prefix_app_substring (p s : string) :
  String.prefix p s = true ->
  s = p ++ String.substring (String.length p) (String.length s - String.length p) s.
Proof.
  revert s. induction p as [|c p IH]; intros s H.
  - cbn. rewrite Nat.sub_0_r. symmetry. apply substring_all.
  - destruct s as [|c' s]; [discriminate|].
    cbn in H. destruct (ascii_dec c c') as [<-|]; [|discriminate].
    exact (f_equal (String c) (IH s H)).
Qed.

Lemma dataset_name_attr (a key : string) :
  dataset_name a = Some key -> a = "data-" ++ camel_to_kebab key.
Proof.
  unfold dataset_name. destruct (String.prefix "data-" a) eqn:Hp; [|discriminate].
  destruct (has_ascii_upper _) eqn:Hu; [discriminate|]. intros [= <-].
  rewrite camel_to_kebab_dash by exact Hu. apply prefix_app_substring. exact Hp.
Qed.

Lemma dataset_get_in attrs a v key :
  NoDup (map fst attrs) -> In (a, v) attrs -> dataset_name a = Some key ->
  dataset_get attrs key = Some v.
Proof.
  intros Hnd Hin Ha. induction attrs as [|[n w] attrs IH]; [destruct Hin|].
  cbn in Hnd. apply NoDup_cons in Hnd as [Hn Hnd].
  cbn. destruct (dataset_name n) as [k|] eqn:Hk.
  - destruct (String.eqb_spec k key) as [->|Hne].
    + assert (n = a) as ->.
      { rewrite (dataset_name_attr _ _ Hk), (dataset_name_attr _ _ Ha). reflexivity. }
      destruct Hin as [[= ->]|Hin]; [reflexivity|].
      exfalso. apply Hn. apply list_elem_of_In. apply in_map_iff. exists (a, v). auto.
    + destruct Hin as [[= -> ->]|Hin]; [congruence|]. apply IH; assumption.
  - destruct Hin as [[= -> ->]|Hin]; [congruence|]. apply IH; assumption.
Qed.

Lemma forallb_false {A} (f : A -> bool) (l : list A) x :
  In x l -> f x = false -> forallb f l = false.
Proof.
  intros Hin Hf. destruct (forallb f l) eqn:E; [|reflexivity].
  rewrite forallb_forall in E. rewrite (E x Hin) in Hf. discriminate.
Qed.

(** Extra (config.ts, [keysAsDataAttributes] and [from]): every attribute
    name that [keysAsDataAttributes] lists is the [data-*] form of a field
    of the configuration, and [Config.from] on an element carrying that
    attribute (once) sets the field to the attribute's value; only for
    [language], an empty value is replaced by [navigator.language]. *)
Theorem Config_from_data_attributes (h : nat) (a : string) :
  In a (keysAsDataAttributes h) ->
  exists key, In key (obj_keys (fst (new_Config h))) /\ dataset_name a = Some key /\
    forall attrs nl v, NoDup (map fst attrs) -> In (a, v) attrs ->
      obj_get (fst (Config_from attrs nl h)) key =
        if String.eqb key "language" && negb (str_truthy v) then JStr nl else JStr v.
Proof.
  intros H.
  assert (E : keysAsDataAttributes h =
    ["data-shapes"; "data-shapes-url"; "data-shape-subject"; "data-values";
     "data-values-url"; "data-value-subject"; "data-language";
     "data-load-owl-imports"; "data-submit-button"]) by reflexivity.
  rewrite E in H. cbn in H.
  assert (G : forall key, In key (obj_keys (fst (new_Config h))) -> dataset_name a = Some key ->
    exists key, In key (obj_keys (fst (new_Config h))) /\ dataset_name a = Some key /\
    forall attrs nl v, NoDup (map fst attrs) -> In (a, v) attrs ->
      obj_get (fst (Config_from attrs nl h)) key =
        if String.eqb key "language" && negb (str_truthy v) then JStr nl else JStr v).
  { intros key Hk Ha. exists key. split; [exact Hk|]. split; [exact Ha|].
    intros attrs nl v Hnd Hin. rewrite Config_from_get by exact Hk.
    rewrite (dataset_get_in attrs a v key Hnd Hin Ha). reflexivity. }
  repeat destruct H as [<-|H]; try destruct H; (eapply G; [|reflexivity]; cbn; tauto).
Qed.

(** Extra (config.ts, [from]): the private fields ([_theme], [_lists], ...)
    are not listed by [keysAsDataAttributes], yet [Config.from] still
    overwrites such a field with the string value of an attribute named
    [data-] followed by its kebab-case name (e.g. [data-_theme]). *)
Theorem Config_from_private_fields (h : nat) (key : string) :
  In key (obj_keys (fst (new_Config h))) -> String.prefix "_" key = true ->
  ~ In ("data-" ++ camel_to_kebab key) (keysAsDataAttributes h) /\
  forall attrs nl v, NoDup (map fst attrs) -> In ("data-" ++ camel_to_kebab key, v) attrs ->
    obj_get (fst (Config_from attrs nl h)) key = JStr v.
Proof.
  intros Hk Hp.
  assert (E : keysAsDataAttributes h =
    ["data-shapes"; "data-shapes-url"; "data-shape-subject"; "data-values";
     "data-values-url"; "data-value-subject"; "data-language";
     "data-load-owl-imports"; "data-submit-button"]) by reflexivity.
  rewrite E. split.
  - intros HI. cbn in Hk.
    repeat destruct Hk as [<-|Hk]; try destruct Hk; try discriminate Hp;
      vm_compute in HI; intuition discriminate.
  - intros attrs nl v Hnd Hin. rewrite Config_from_get by exact Hk.
    erewrite dataset_get_in; [|exact Hnd|exact Hin|].
    + cbn in Hk.
      repeat destruct Hk as [<-|Hk]; try destruct Hk; try discriminate Hp; reflexivity.
    + cbn in Hk.
      repeat destruct Hk as [<-|Hk]; try destruct Hk; try discriminate Hp; vm_compute; reflexivity.
Qed.

(** Extra (config.ts, [from]): a field without a matching [data-*]
    attribute keeps its initial value, except [language], which becomes
    [navigator.language]; an empty [data-language] also gives
    [navigator.language]. *)
Theorem Config_from_defaults attrs nl h :
  (forall key, In key (obj_keys (fst (new_Config h))) -> dataset_get attrs key = None ->
     obj_get (fst (Config_from attrs nl h)) key =
       if String.eqb key "language" then JStr nl else obj_get (fst (new_Config h)) key) /\
  (dataset_get attrs "language" = Some "" ->
     obj_get (fst (Config_from attrs nl h)) "language" = JStr nl).
Proof.
  split.
  - intros key Hk Hd. rewrite Config_from_get by exact Hk. rewrite Hd. cbv zeta.
    destruct (String.eqb_spec key "language") as [->|]; reflexivity.
  - intros Hd. rewrite Config_from_get by (cbn; tauto). rewrite Hd. reflexivity.
Qed.

(** Extra (config.ts, [equals]): a configuration equals itself and not a
    missing one, and two configurations built one after the other are
    never equal (in either direction) unless the second one's [_theme] is
    set from an attribute, because each owns a fresh theme object compared
    by reference. *)
Theorem Config_equals_separate attrs1 nl1 attrs2 nl2 h :
  let c1 := fst (Config_from attrs1 nl1 h) in
  let c2 := fst (Config_from attrs2 nl2 (snd (Config_from attrs1 nl1 h))) in
  Config_equals c1 None = false /\ Config_equals c1 (Some c1) = true /\
  (dataset_get attrs2 "_theme" = None ->
     Config_equals c1 (Some c2) = false /\ Config_equals c2 (Some c1) = false).
Proof.
  intros c1 c2. split; [reflexivity|]. split.
  - cbn [Config_equals]. apply forallb_forall. intros k _.
    destruct (obj_get c1 k); cbn; rewrite ?String.eqb_refl, ?Nat.eqb_refl; reflexivity.
  - intros Hd.
    assert (T : In "_theme" (obj_keys (fst (new_Config h)))) by (cbn; tauto).
    assert (T' : In "_theme" (obj_keys (fst (new_Config (h + 7))))) by (cbn; tauto).
    assert (E2 : obj_get c2 "_theme" = JObj (h + 7)).
    { subst c2. rewrite Config_from_snd, Config_from_get by exact T'. rewrite Hd. reflexivity. }
    assert (D : strict_eq (obj_get c1 "_theme") (obj_get c2 "_theme") = false /\
                strict_eq (obj_get c2 "_theme") (obj_get c1 "_theme") = false).
    { rewrite E2. subst c1. rewrite Config_from_get by exact T. cbv zeta.
      destruct (dataset_get attrs1 "_theme"); cbn; [split; reflexivity|].
      rewrite Nat.eqb_sym, (proj2 (Nat.eqb_neq _ _)) by lia. split; reflexivity. }
    split; cbn [Config_equals].
    + eapply forallb_false; [|exact (proj1 D)]. subst c1. rewrite Config_from_keys. exact T.
    + eapply forallb_false; [|exact (proj2 D)]. subst c2. rewrite Config_from_keys, Config_from_snd. exact T'.
Qed.

(** Extra (config.ts, [registerPrefixes]): registering prefixes is a left
    biased union: a registered prefix overrides an existing one of the
    same name, and every other existing prefix is kept. *)
Theorem registerPrefixes_union {A : Type} (own prefixes : gmap string A) :
  registerPrefixes own prefixes = prefixes ∪ own /\
  forall key, registerPrefixes own prefixes !! key =
    match prefixes !! key with Some v => Some v | None => own !! key end.
Proof.
  assert (E : registerPrefixes own prefixes = prefixes ∪ own).
  { unfold registerPrefixes. induction prefixes as [|k v m Hk IH] using map_ind.
    - rewrite map_fold_empty. symmetry. apply map_empty_union.
    - rewrite map_fold_insert_L; [|intros; apply insert_insert_ne; congruence|exact Hk].
      rewrite IH. apply insert_union_l. }
  split; [exact E|]. intros key. rewrite E, lookup_union.
  destruct (prefixes !! key), (own !! key); reflexivity.
Qed.

(* ------------------------------------------------------------------ *)
(** ** The editors as constructed and their runs *)

Lemma set_value_attrs w v :
  (set_value w v).(w_cons) = w.(w_cons) /\ (set_value w v).(w_path) = w.(w_path).
Proof. unfold set_value. case_match; split; reflexivity. Qed.

Lemma setValue_attrs (i i' : input) (t : term) :
  setValue i t = inr i' -> input_attrs i' = input_attrs i.
Proof.
  unfold setValue, base_setValue. intros H.
  destruct (i_class i).
  - injection H as <-. unfold input_attrs, with_editor; cbn [editor langChooser].
    rewrite (proj1 (set_value_attrs _ _)), (proj2 (set_value_attrs _ _)). reflexivity.
  - cbn in H. destruct t as [iri|v l d]; [injection H as <-|].
    + unfold input_attrs, with_editor; cbn [editor langChooser].
      rewrite (proj1 (set_value_attrs _ _)), (proj2 (set_value_attrs _ _)). reflexivity.
    + destruct (langChooser i) as [ch|] eqn:Hl; injection H as <-;
        unfold input_attrs, with_editor, with_langChooser; cbn [editor langChooser option_map];
        rewrite ?Hl; cbn [option_map];
        rewrite !(proj1 (set_value_attrs _ _)), !(proj2 (set_value_attrs _ _)); reflexivity.
  - injection H as <-. unfold input_attrs, with_editor; cbn [editor langChooser].
    rewrite (proj1 (set_value_attrs _ _)), (proj2 (set_value_attrs _ _)). reflexivity.
  - destruct (date_toISOString (term_value t)) as [e|iso]; [discriminate|].
    injection H as <-. unfold input_attrs, with_editor; cbn [editor langChooser].
    rewrite (proj1 (set_value_attrs _ _)), (proj2 (set_value_attrs _ _)). reflexivity.
  - destruct t; injection H as <-; reflexivity.
  - injection H as <-. unfold input_attrs, with_editor; cbn [editor langChooser].
    rewrite (proj1 (set_value_attrs _ _)), (proj2 (set_value_attrs _ _)). reflexivity.
Qed.

Lemma step_attrs (i i' : input) : step i i' -> input_attrs i' = input_attrs i.
Proof.
  destruct 1 as [i t i' H| | | | i ch v Hl _ | i ch n Hl _ _];
    [exact (setValue_attrs _ _ _ H)|reflexivity..| |];
    unfold input_attrs; cbn; rewrite Hl; reflexivity.
Qed.

Lemma steps_attrs (i i' : input) : steps i i' -> input_attrs i' = input_attrs i.
Proof.
  induction 1 as [|a b c Hab _ IH]; [reflexivity|].
  rewrite IH. exact (step_attrs _ _ Hab).
Qed.







(** Extra (inputs.ts, [setValue] of every class and the user's edits):
    no run of an editor changes its class, its property, [required], the
    kind of its control and of its language chooser, their options, their
    constraints, their placeholder or [data-path]. *)
Theorem steps_keep_structure (i i' : input) :
  steps i i' ->
  i'.(i_class) = i.(i_class) /\ i'.(property) = i.(property) /\
  i'.(required) = i.(required) /\
  input_shape i' = input_shape i /\ input_attrs i' = input_attrs i.
Proof.
  intros H. destruct (steps_fields _ _ H) as (H1 & H2 & H3).
  repeat split; [exact H1|exact H2|exact H3|exact (steps_shape _ _ H)|exact (steps_attrs _ _ H)].
Qed.

Lemma fold_add_option_selected (langs : list string) (w : widget) j :
  w.(w_selected) = Some j ->
  (fold_left (fun w lang => add_option w lang lang) langs w).(w_selected) = Some j.
Proof.
  revert w. induction langs as [|l ls IH]; intros w Hs; [exact Hs|].
  cbn [fold_left]. apply IH. cbn. rewrite Hs. reflexivity.
Qed.

Lemma createLangChooser_value (p : ShaclPropertySpec) :
  get_value (createLangChooser p) = match p.(languageIn) with l :: _ => l | [] => "" end.
Proof.
  unfold createLangChooser. destruct (languageIn p) as [|l ls]; [reflexivity|].
  cbn [fold_left].
  set (w := add_option (new_widget CSelect) l l).
  destruct (fold_add_option_options ls w) as [Hc Ho].
  pose proof (fold_add_option_selected ls w 0 eq_refl) as Hs.
  unfold get_value. rewrite Hc, Hs, Ho. reflexivity.
Qed.

Lemma construct_text_editor (k : EditorKind) (p : ShaclPropertySpec) es e :
  k = InputText \/ k = InputLangString ->
  construct k p es = inr e ->
  e.(editor).(w_control) =
    (if bool_decide (p.(singleLine) = Some false) then CTextArea else CInput "text") /\
  get_value e.(editor) =
    if bool_decide (p.(singleLine) = Some false) then "" else strip_newlines (default_value_str p).
Proof.
  intros Hk H. destruct (construct_core k p es e H) as (C1 & C2 & _).
  unfold get_value. rewrite C2, C1.
  destruct Hk as [-> | ->]; cbn [createEditor];
    case_bool_decide; cbn; split; reflexivity.
Qed.

(** Extra (inputs.ts, the [InputBase] and [InputText] constructors and
    [InputText.toRDFObject]): a new Text editor already yields the
    property's default value, with its line breaks stripped by the text
    input, as a named node or a literal, and nothing when that is empty.
    A multi-line property is the exception: [setAttribute('value', ...)]
    does not fill a textarea, so that editor yields nothing. *)
Theorem fresh_text_default (p : ShaclPropertySpec) es (e : input) :
  construct InputText p es = inr e ->
  toRDFObject e =
    if bool_decide (p.(singleLine) = Some false) then None
    else if str_truthy (strip_newlines (default_value_str p))
    then Some (iri_or_literal p (strip_newlines (default_value_str p)))
    else None.
Proof.
  intros H. unfold toRDFObject.
  rewrite (proj2 (construct_text_editor InputText p es e (or_introl eq_refl) H)).
  destruct (construct_fields InputText p es e H) as (-> & -> & _).
  case_bool_decide; reflexivity.
Qed.

(** Extra (inputs.ts, [InputLangString]: its constructor,
    [createLangChooser] and [toRDFObject]): when the user types a text [x]
    into a new LangString editor, the editor's value is [x] with its line
    breaks stripped (a text input) or normalized (a textarea, for a
    multi-line property); when that value is non-empty the editor yields
    it tagged with the first language of [sh:languageIn] (lower-cased),
    which the select shows first; with no [sh:languageIn] the chooser is
    an empty text input and the value gets the property's datatype
    instead. *)
Theorem fresh_langstring_language (p : ShaclPropertySpec) es (e : input) (x : string) :
  construct InputLangString p es = inr e ->
  let v := get_value (user_input e.(editor) x) in
  v = (if bool_decide (p.(singleLine) = Some false) then normalize_newlines x
       else strip_newlines x) /\
  toRDFObject (with_editor e (user_input e.(editor) x)) =
    if str_truthy v then
      Some (literal v (match p.(languageIn) with
                       | l :: _ => if str_truthy l then LangArg l else DatatypeArg p.(datatype)
                       | [] => DatatypeArg p.(datatype)
                       end))
    else None.
Proof.
  intros H v.
  destruct (construct_fields InputLangString p es e H) as (Hk & Hp & _).
  destruct (construct_core InputLangString p es e H) as (_ & _ & Hl).
  destruct (construct_text_editor InputLangString p es e (or_intror eq_refl) H) as [Hc _].
  assert (Hv : v = (if bool_decide (p.(singleLine) = Some false) then normalize_newlines x
                    else strip_newlines x)).
  { subst v. unfold get_value, user_input. cbn [with_value w_control w_value].
    rewrite Hc. case_bool_decide; reflexivity. }
  split; [exact Hv|].
  unfold toRDFObject, chooser_value, with_editor.
  cbn [i_class property editor langChooser].
  rewrite Hk, Hp, Hl, createLangChooser_value. fold v.
  destruct (languageIn p) as [|l ls]; [reflexivity|].
  destruct (str_truthy l); reflexivity.
Qed.

(** Extra (inputs.ts, the [InputBase] and [InputBoolean] constructors and
    [InputBoolean.toRDFObject]): a new Boolean editor (its constructor
    does not throw) is unchecked whatever the default value (even "true":
    [setAttribute('value', ...)] does not tick a checkbox), so it yields
    "false" if the property is required and nothing otherwise. *)
Theorem fresh_boolean_unchecked (p : ShaclPropertySpec) es :
  exists e, construct InputBoolean p es = inr e /\
  e.(editor).(w_checked) = false /\
  toRDFObject e =
    if is_required p then Some (literal "false" (DatatypeArg p.(datatype))) else None.
Proof.
  exists (InputBoolean_new p). split; [reflexivity|].
  unfold toRDFObject. cbn.
  destruct (str_truthy (placeholder_of p)), (is_required p); split; reflexivity.
Qed.



Lemma existsb_map_comp {A B} (f : B -> bool) (g : A -> B) (l : list A) :
  existsb f (map g l) = existsb (fun x => f (g x)) l.
Proof. induction l as [|x l IH]; cbn; [reflexivity|]. rewrite IH. reflexivity. Qed.

Lemma find_option_none opts v :
  find_option opts v = None <-> existsb (fun o => String.eqb o.1 v) opts = false.
Proof.
  induction opts as [|[v' txt] opts IH]; cbn; [split; reflexivity|].
  destruct (String.eqb v' v); cbn; [split; discriminate|].
  rewrite <- IH. destruct (find_option opts v); cbn; split; congruence.
Qed.

Lemma get_value_set_select w v :
  w.(w_control) = CSelect ->
  get_value (set_value w v) =
    if existsb (fun o => String.eqb o.1 v) w.(w_options) then v else "".
Proof.
  intros Hc. unfold set_value. rewrite Hc. unfold get_value. cbn. rewrite Hc.
  destruct (find_option (w_options w) v) as [j|] eqn:E.
  - destruct (find_option_some _ _ _ E) as [txt Ht]. rewrite Ht.
    destruct (existsb _ _) eqn:Ex; [reflexivity|].
    apply find_option_none in Ex. congruence.
  - apply find_option_none in E. rewrite E. reflexivity.
Qed.

Lemma input_shape_parts (i i' : input) :
  input_shape i' = input_shape i ->
  i'.(editor).(w_control) = i.(editor).(w_control) /\
  i'.(editor).(w_options) = i.(editor).(w_options) /\
  option_map (fun ch => (ch.(w_control), ch.(w_options))) i'.(langChooser) =
  option_map (fun ch => (ch.(w_control), ch.(w_options))) i.(langChooser).
Proof.
  intros H. unfold input_shape in H.
  pose proof (f_equal (fun x => fst (fst x)) H) as H1.
  pose proof (f_equal (fun x => snd (fst x)) H) as H2.
  pose proof (f_equal snd H) as H3. cbn in H1, H2, H3. auto.
Qed.

(** Extra (inputs.ts, [InputBase.setValue] and [InputList.toRDFObject] on
    an editor built by the [InputList] constructor): at any point of its
    run, [setValue(t)] on a List editor succeeds and selects the first
    option whose value is [t.value]: the empty option when [t.value] is
    empty, else the first entry with that value, else none.  The editor
    then yields [t.value] exactly when it is non-empty and the value of
    some list entry, and nothing otherwise. *)
Theorem list_setValue (p : ShaclPropertySpec) (es : list InputListEntry) (e0 i : input) (t : term) :
  construct InputList p (Some es) = inr e0 ->
  steps e0 i ->
  exists i', setValue i t = inr i' /\
    i'.(editor).(w_selected) =
      (if String.eqb (term_value t) "" then Some 0%nat
       else option_map S (find_option (map entry_option es) (term_value t))) /\
    toRDFObject i' =
      if str_truthy (term_value t) &&
         existsb (fun x => String.eqb (term_value x.(le_value)) (term_value t)) es
      then Some (iri_or_literal p (term_value t)) else None.
Proof.
  intros H0 H.
  assert (E0 : e0 = InputList_new p (Some es)) by (injection H0 as <-; reflexivity).
  subst e0.
  destruct (steps_fields _ _ H) as (Hk & Hp & _).
  destruct (input_shape_parts _ _ (steps_shape _ _ H)) as (Hc & Ho & _).
  destruct (InputList_new_editor p es) as (Hc0 & Ho0 & Hk0 & Hp0).
  rewrite Hk0 in Hk. rewrite Hp0 in Hp. rewrite Hc0 in Hc. rewrite Ho0 in Ho.
  exists (base_setValue i t). split.
  { unfold setValue. rewrite Hk. reflexivity. }
  split.
  { unfold base_setValue, with_editor, set_value. cbn [editor]. rewrite Hc, Ho.
    cbn [w_selected with_selection find_option].
    rewrite (String.eqb_sym "" (term_value t)). reflexivity. }
  unfold toRDFObject, base_setValue, with_editor. cbn [i_class property editor].
  rewrite Hk, Hp, (get_value_set_select _ _ Hc), Ho.
  cbn [existsb fst]. rewrite existsb_map_comp. cbn [fst entry_option].
  unfold str_truthy. destruct (String.eqb_spec (term_value t) "") as [E|E].
  - rewrite E. cbn. repeat (match goal with |- context [existsb ?f ?l] => destruct (existsb f l) end); reflexivity.
  - rewrite (proj2 (String.eqb_neq "" (term_value t))) by congruence. cbn.
    repeat (match goal with |- context [existsb ?f ?l] => destruct (existsb f l) end);
      [rewrite (proj2 (String.eqb_neq (term_value t) "") E)|]; reflexivity.
Qed.

(** Extra (inputs.ts, [InputLangString]: [createLangChooser], [setValue]
    and [toRDFObject]): when the property has [sh:languageIn], a
    LangString editor at any point of its run yields either an untagged
    literal or a literal tagged with one of the listed languages
    (lower-cased): the select cannot hold any other tag. *)
Theorem langstring_tag_listed (p : ShaclPropertySpec) es (e0 i : input) (t : term) :
  construct InputLangString p es = inr e0 ->
  steps e0 i ->
  p.(languageIn) <> [] ->
  toRDFObject i = Some t ->
  term_language t = "" \/ exists l, In l p.(languageIn) /\ term_language t = to_lower l.
Proof.
  intros H0 H Hne Ht. destruct (steps_fields _ _ H) as (Hk & Hp & _).
  destruct (input_shape_parts _ _ (steps_shape _ _ H)) as (_ & _ & Hl).
  destruct (construct_fields InputLangString p es e0 H0) as (Hk0 & Hp0 & _).
  rewrite Hk0 in Hk. rewrite Hp0 in Hp.
  destruct (construct_core InputLangString p es e0 H0) as (_ & _ & Hl0).
  rewrite Hl0 in Hl.
  destruct (langChooser i) as [ch|] eqn:Hch; [|discriminate].
  cbn in Hl. injection Hl as Hc Ho.
  destruct (proj2 (createLangChooser_shape p) Hne) as [Hc1 _].
  rewrite Hc1 in Hc.
  unfold toRDFObject, chooser_value in Ht. rewrite Hk, Hch in Ht.
  destruct (str_truthy (get_value (editor i))); [|discriminate].
  injection Ht as <-.
  destruct (str_truthy (get_value ch)) eqn:Hv.
  - right. exists (get_value ch). split; [|reflexivity].
    assert (Hne' : get_value ch <> "").
    { intros E. rewrite E in Hv. discriminate. }
    destruct (get_value_select ch Hc Hne') as (j & txt & Hj).
    rewrite Ho in Hj. exact (chooser_option_tag p j _ txt Hne Hj).
  - left. destruct (literal_datatype_Literal (get_value (editor i)) (datatype (property i)))
      as [dt ->]. reflexivity.
Qed.

(** An editor just built by [inputFactory] is reachable. *)
Lemma factory_reachable lists p es (i : input) :
  factory_editor lists p es = inr i -> reachable i.
Proof. intros F. exists lists, p, es, i. split; [exact F|apply rtc_refl]. Qed.

End Host.

(* ------------------------------------------------------------------ *)
(** ** Witnesses and counterexamples, in a UTC host whose number
       rendering is the identity on literals *)

Lemma inputFactory_missing_list_witness :
  color_property.(shaclIn) = Some "colorList" /\ "colorList" <> "" /\
  ((∅ : lists_map) !! "colorList" = None \/ (∅ : lists_map) !! "colorList" = Some []) /\
  inputFactory ∅ color_property =
    (resolve_spec (fallback_rules color_property), [ListNotFound "colorList"]) /\
  fst (inputFactory ∅ color_property) <> InputList.
Proof.
  split; [reflexivity|]. split; [discriminate|]. split; [left; reflexivity|].
  apply inputFactory_missing_list; [reflexivity|discriminate|left; reflexivity].
Defined.

Lemma boolean_toRDFObject_witness :
  match factory_editor ∅ (plain_property (Some XSD_boolean)) [] with
  | inr i =>
      reachable (fun _ => None) 0 i /\ i.(i_class) = InputBoolean /\
      ((i.(editor).(w_checked) = true ->
          toRDFObject (fun lit => lit) (fun _ => false) i =
          Some (literal "true" (DatatypeArg i.(property).(datatype)))) /\
       (i.(editor).(w_checked) = false -> is_required i.(property) = true ->
          toRDFObject (fun lit => lit) (fun _ => false) i =
          Some (literal "false" (DatatypeArg i.(property).(datatype)))) /\
       (i.(editor).(w_checked) = false -> is_required i.(property) = false ->
          toRDFObject (fun lit => lit) (fun _ => false) i = None))
  | inl _ => False
  end.
Proof.
  destruct (factory_editor ∅ (plain_property (Some XSD_boolean)) []) as [err|i] eqn:F;
    [vm_compute in F; discriminate|].
  pose proof (factory_reachable (fun _ => None) 0 _ _ _ _ F) as R.
  assert (K : i.(i_class) = InputBoolean) by (vm_compute in F; injection F as <-; reflexivity).
  split; [exact R|]. split; [exact K|].
  exact (boolean_toRDFObject (fun lit => lit) (fun _ => false) (fun _ => None) 0 i R K).
Defined.

Lemma boolean_setValue_witness :
  let i := InputBoolean_new (plain_property (Some XSD_boolean)) in
  i.(i_class) = InputBoolean /\
  ((forall v l d,
      setValue (fun _ => None) 0 i (Literal v l d) =
        inr (with_editor i (with_checked i.(editor) (String.eqb v "true"))) /\
      ((String.eqb v "true" = true) <-> v = "true")) /\
   (forall iri, setValue (fun _ => None) 0 i (NamedNode iri) = inr i)).
Proof.
  intros i. assert (K : i.(i_class) = InputBoolean) by reflexivity.
  split; [exact K|]. exact (boolean_setValue (fun _ => None) 0 i K).
Defined.

(** C6 counterexample: choosing the entry ex:Blue of a list without [class]
    or an IRI node kind gives a literal, not the entry's named node. *)
Lemma list_entry_value_cex :
  match factory_editor color_lists color_property color_entries with
  | inr e =>
      e.(i_class) = InputList /\
      color_entries !! 1%nat =
        Some {| le_value := NamedNode "http://example.org/Blue"; le_label := Some "Blue" |} /\
      toRDFObject (fun lit => lit) (fun _ => false) (with_editor e (select_index e.(editor) 2)) =
        Some (Literal "http://example.org/Blue" "" XSD_string) /\
      toRDFObject (fun lit => lit) (fun _ => false) (with_editor e (select_index e.(editor) 2)) <>
        Some (NamedNode "http://example.org/Blue")
  | inl _ => False
  end.
Proof. vm_compute. split; [reflexivity|]. split; [reflexivity|]. split; [reflexivity|]. discriminate. Qed.


Lemma number_toRDFObject_total_witness :
  match factory_editor ∅ (plain_property (Some XSD_integer)) [] with
  | inr i0 =>
      match setValue (fun _ => None) 0 i0 (Literal "5" "" XSD_integer) with
      | inr i =>
          get_value i.(editor) = "5" /\
          reachable (fun _ => None) 0 i /\ i.(i_class) = InputNumber /\
          exists d, i.(property).(datatype) = Some d /\
          (get_value i.(editor) = "" \/ valid_float (get_value i.(editor)) = true) /\
          (toRDFObject (fun lit => lit) (fun _ => false) i = None <-> get_value i.(editor) = "") /\
          forall v, get_value i.(editor) = v -> v <> "" ->
            toRDFObject (fun lit => lit) (fun _ => false) i =
              Some (Literal (number_to_string (fun lit => lit) (parseFloat v)) "" d) /\
            parseFloat v <> JSNaN
      | inl _ => False
      end
  | inl _ => False
  end.
Proof.
  destruct (factory_editor ∅ (plain_property (Some XSD_integer)) []) as [err|i0] eqn:F;
    [vm_compute in F; discriminate|].
  destruct (setValue (fun _ => None) 0 i0 (Literal "5" "" XSD_integer)) as [err|i] eqn:S.
  { vm_compute in F. injection F as <-. vm_compute in S. discriminate. }
  assert (R : reachable (fun _ => None) 0 i).
  { exists ∅, (plain_property (Some XSD_integer)), [], i0.
    split; [exact F|]. apply rtc_once. exact (step_setValue _ _ _ _ _ S). }
  assert (K : i.(i_class) = InputNumber /\ get_value i.(editor) = "5").
  { vm_compute in F. injection F as <-. vm_compute in S. injection S as <-.
    split; reflexivity. }
  split; [exact (proj2 K)|]. split; [exact R|]. split; [exact (proj1 K)|].
  exact (number_toRDFObject_total (fun lit => lit) (fun _ => false) (fun _ => None) 0 i R (proj1 K)).
Defined.

(** C9 counterexample: a Number editor given the non-numeric value "abc"
    does not yield the literal "NaN": the number input blanks the value,
    and the editor yields nothing. *)
Lemma number_nonnumeric_absent_cex :
  match factory_editor ∅ (plain_property (Some XSD_integer)) [] with
  | inr i0 =>
      i0.(i_class) = InputNumber /\
      match setValue (fun _ => None) 0 i0 (Literal "abc" "" XSD_integer) with
      | inr i => get_value i.(editor) = "" /\
                 toRDFObject (fun lit => lit) (fun _ => false) i = None
      | inl _ => False
      end
  | inl _ => False
  end.
Proof. vm_compute. split; [reflexivity|]. split; reflexivity. Qed.

(** C5 counterexamples: the Date editor given the invalid date 2024-13-01
    does not store a truncated ISO string: [toISOString] throws RangeError;
    and an xsd:dateTime editor given a time with zero seconds stores 16
    characters, not 19: the datetime-local input drops ":00". *)
Lemma date_invalid_value_cex :
  match factory_editor ∅ (plain_property (Some XSD_date)) [],
        factory_editor ∅ (plain_property (Some XSD_dateTime)) [] with
  | inr e, inr e2 =>
      e.(i_class) = InputDate /\
      setValue (fun _ => None) 0 e (Literal "2024-13-01" "" XSD_date) = inl RangeError /\
      e2.(i_class) = InputDate /\
      match setValue (fun _ => None) 0 e2 (Literal "2024-05-06T07:08:00Z" "" XSD_dateTime) with
      | inr e' => get_value e'.(editor) = "2024-05-06T07:08"
      | inl _ => False
      end
  | _, _ => False
  end.
Proof. vm_compute. split; [reflexivity|]. split; [reflexivity|]. split; reflexivity. Qed.

Lemma date_setValue_iso_witness :
  let t := Literal "2024-05-06T07:08:09.123Z" "" XSD_dateTime in
  match factory_editor ∅ (plain_property (Some XSD_dateTime)) [] with
  | inr i =>
      reachable (fun _ => None) 0 i /\ i.(i_class) = InputDate /\
      match date_parse (fun _ => None) 0 (term_value t) with
      | Some tv =>
          let '(y, _, _) := civil_from_days (tv / msPerDay)%Z in
          let n := if bool_decide (i.(property).(datatype) = Some XSD_dateTime)
                   then (if (((tv mod msPerDay) / 1000) mod 60 =? 0)%Z then 16%nat else 19%nat)
                   else 10%nat in
          let v := if (1 <=? y)%Z && (y <=? 9999)%Z then slice0 (iso_string tv) n else "" in
          setValue (fun _ => None) 0 i t = inr (with_editor i (with_value i.(editor) v)) /\
          toRDFObject (fun lit => lit) (fun _ => false) (with_editor i (with_value i.(editor) v)) =
            (if (1 <=? y)%Z && (y <=? 9999)%Z
             then Some (literal v (DatatypeArg i.(property).(datatype))) else None)
      | None => setValue (fun _ => None) 0 i t = inl RangeError
      end
  | inl _ => False
  end.
Proof.
  intros t.
  destruct (factory_editor ∅ (plain_property (Some XSD_dateTime)) []) as [err|i] eqn:F;
    [vm_compute in F; discriminate|].
  pose proof (factory_reachable (fun _ => None) 0 _ _ _ _ F) as R.
  assert (K : i.(i_class) = InputDate) by (vm_compute in F; injection F as <-; reflexivity).
  split; [exact R|]. split; [exact K|].
  exact (date_setValue_iso (fun lit => lit) (fun _ => false) (fun _ => None) 0 i t R K).
Defined.


(* ------------------------------------------------------------------ *)
(** ** Instances of the configuration and editor properties *)

Lemma Config_from_data_attributes_witness :
  In "data-shapes-url" (keysAsDataAttributes 0) /\
  obj_get (fst (Config_from [("data-shapes-url", "http://example.org/shapes.ttl")] "en" 0))
    "shapesUrl" = JStr "http://example.org/shapes.ttl".
Proof.
  assert (H : In "data-shapes-url" (keysAsDataAttributes 0)) by (simpl; tauto).
  split; [exact H|].
  destruct (Config_from_data_attributes 0 "data-shapes-url" H) as (key & _ & Hn & G).
  vm_compute in Hn. injection Hn as <-.
  apply (G [("data-shapes-url", "http://example.org/shapes.ttl")] "en"
           "http://example.org/shapes.ttl").
  - apply NoDup_singleton.
  - simpl. tauto.
Defined.

Lemma Config_from_private_fields_witness :
  In "_theme" (obj_keys (fst (new_Config 0))) /\ String.prefix "_" "_theme" = true /\
  ~ In ("data-" ++ camel_to_kebab "_theme") (keysAsDataAttributes 0) /\
  obj_get (fst (Config_from [("data-_theme", "dark")] "en" 0)) "_theme" = JStr "dark".
Proof.
  assert (H1 : In "_theme" (obj_keys (fst (new_Config 0)))) by (simpl; tauto).
  assert (H2 : String.prefix "_" "_theme" = true) by reflexivity.
  destruct (Config_from_private_fields 0 "_theme" H1 H2) as [N G].
  split; [exact H1|]. split; [exact H2|]. split; [exact N|].
  apply (G [("data-_theme", "dark")] "en" "dark").
  - apply NoDup_singleton.
  - simpl. tauto.
Defined.

Lemma steps_keep_structure_witness :
  match construct InputText (plain_property None) None with
  | inr i =>
      let i' := with_editor i (user_input i.(editor) "abc") in
      steps (fun _ => None) 0 i i' /\
      i'.(i_class) = i.(i_class) /\ i'.(property) = i.(property) /\
      i'.(required) = i.(required) /\
      input_shape i' = input_shape i /\ input_attrs i' = input_attrs i
  | inl _ => False
  end.
Proof.
  destruct (construct InputText (plain_property None) None) as [err|i] eqn:F;
    [vm_compute in F; discriminate|].
  intros i'.
  assert (H : steps (fun _ => None) 0 i i').
  { apply rtc_once. apply step_type. vm_compute in F. injection F as <-. simpl. discriminate. }
  split; [exact H|]. exact (steps_keep_structure (fun _ => None) 0 i i' H).
Defined.

Lemma fresh_text_default_witness :
  match construct InputText default_text_property None with
  | inr e => toRDFObject (fun lit => lit) (fun _ => false) e = Some (Literal "hello" "" XSD_string)
  | inl _ => False
  end.
Proof.
  destruct (construct InputText default_text_property None) as [err|e] eqn:F;
    [vm_compute in F; discriminate|].
  rewrite (fresh_text_default (fun lit => lit) (fun _ => false) default_text_property None e F).
  vm_compute. reflexivity.
Defined.

Lemma fresh_langstring_language_witness :
  match construct InputLangString german_text_property None with
  | inr e =>
      get_value (user_input e.(editor) "Hal
lo") = "Hallo" /\
      toRDFObject (fun lit => lit) (fun _ => false) (with_editor e (user_input e.(editor) "Hal
lo")) =
        Some (Literal "Hallo" "de" RDF_langString)
  | inl _ => False
  end.
Proof.
  destruct (construct InputLangString german_text_property None) as [err|e] eqn:F;
    [vm_compute in F; discriminate|].
  pose proof (fresh_langstring_language (fun lit => lit) (fun _ => false) german_text_property None
                e "Hal
lo" F) as H.
  cbv zeta in H. destruct H as [H1 H2].
  rewrite H2, H1. vm_compute. split; reflexivity.
Defined.

Lemma list_setValue_witness :
  match construct InputList color_property (Some color_entries) with
  | inr e =>
      steps (fun _ => None) 0 e e /\
      exists i', setValue (fun _ => None) 0 e (NamedNode "http://example.org/Blue") = inr i' /\
        i'.(editor).(w_selected) = Some 2%nat /\
        toRDFObject (fun lit => lit) (fun _ => false) i' =
          Some (Literal "http://example.org/Blue" "" XSD_string)
  | inl _ => False
  end.
Proof.
  destruct (construct InputList color_property (Some color_entries)) as [err|e] eqn:F;
    [vm_compute in F; discriminate|].
  assert (H : steps (fun _ => None) 0 e e) by apply rtc_refl.
  split; [exact H|].
  destruct (list_setValue (fun lit => lit) (fun _ => false) (fun _ => None) 0
              color_property color_entries e e (NamedNode "http://example.org/Blue") F H)
    as (i' & Hs & Hsel & Ht).
  exists i'. split; [exact Hs|]. rewrite Hsel, Ht. vm_compute. split; reflexivity.
Defined.

Lemma langstring_tag_listed_witness :
  match construct InputLangString german_text_property None with
  | inr e =>
      let i := with_editor e (user_input e.(editor) "Hallo") in
      steps (fun _ => None) 0 e i /\ german_text_property.(languageIn) <> [] /\
      toRDFObject (fun lit => lit) (fun _ => false) i = Some (Literal "Hallo" "de" RDF_langString) /\
      (term_language (Literal "Hallo" "de" RDF_langString) = "" \/
       exists l, In l german_text_property.(languageIn) /\
         term_language (Literal "Hallo" "de" RDF_langString) = to_lower l)
  | inl _ => False
  end.
Proof.
  destruct (construct InputLangString german_text_property None) as [err|e] eqn:F;
    [vm_compute in F; discriminate|].
  intros i.
  assert (E : e = match construct InputLangString german_text_property None with
                  | inr e => e | inl _ => e end) by (rewrite F; reflexivity).
  assert (H1 : steps (fun _ => None) 0 e i).
  { apply rtc_once. apply step_type. rewrite E. vm_compute. discriminate. }
  assert (H2 : german_text_property.(languageIn) <> []) by (simpl; discriminate).
  assert (H3 : toRDFObject (fun lit => lit) (fun _ => false) i =
               Some (Literal "Hallo" "de" RDF_langString)).
  { subst i. rewrite E. vm_compute. reflexivity. }
  split; [exact H1|]. split; [exact H2|]. split; [exact H3|].
  exact (langstring_tag_listed (fun lit => lit) (fun _ => false) (fun _ => None) 0
           german_text_property None e i _ F H1 H2 H3).
Defined.
